(** * az_function_ffmpeg: the HTTP-triggered transcoding relay

    A shallow embedding of [azffmpeg/__init__.py].  The module has one
    function, [main]; it is modelled below together with the pieces of the
    Python standard library it calls on text ([str.strip], [str.split],
    [urllib.parse.urlparse], [shlex.split], [os.path.join]).

    Python text is modelled as [string]; a character is one code point
    below 256. *)

From Stdlib Require Import String Ascii List ZArith Lia Bool.
From stdpp Require Import gmap strings.
Import ListNotations.
Open Scope string_scope.

(** ** Python text primitives *)

Module Py.

(** [c in chars] for a one-character [c]. *)
Fixpoint char_in (c : ascii) (chars : string) : bool :=
  match chars with
  | EmptyString => false
  | String d rest => if Ascii.eqb c d then true else char_in c rest
  end.

(** [s.lstrip(chars)] *)
Fixpoint lstrip (chars : string) (s : string) : string :=
  match s with
  | EmptyString => EmptyString
  | String c rest => if char_in c chars then lstrip chars rest else s
  end.

(** [s.rstrip(chars)] *)
Fixpoint rstrip (chars : string) (s : string) : string :=
  match s with
  | EmptyString => EmptyString
  | String c rest =>
      match rstrip chars rest with
      | EmptyString => if char_in c chars then EmptyString else String c EmptyString
      | r => String c r
      end
  end.

(** [s.strip(chars)] *)
Definition strip (chars : string) (s : string) : string :=
  rstrip chars (lstrip chars s).

(** [s.replace(c, "")] for a one-character [c]. *)
Fixpoint remove_char (c : ascii) (s : string) : string :=
  match s with
  | EmptyString => EmptyString
  | String d rest =>
      if Ascii.eqb c d then remove_char c rest else String d (remove_char c rest)
  end.

(** [s.partition(c)] for a one-character separator: the text before the
    first [c], whether [c] was found, and the text after it. *)
Fixpoint partition (c : ascii) (s : string) : string * bool * string :=
  match s with
  | EmptyString => (EmptyString, false, EmptyString)
  | String d rest =>
      if Ascii.eqb d c then (EmptyString, true, rest)
      else let '(a, found, b) := partition c rest in (String d a, found, b)
  end.

(** [s.split(c)] for a one-character separator.  The result is never
    empty: [''.split('/')] is [['']]. *)
Fixpoint split (c : ascii) (s : string) : list string :=
  match s with
  | EmptyString => [EmptyString]
  | String d rest =>
      if Ascii.eqb d c then EmptyString :: split c rest
      else match split c rest with
           | [] => [String d EmptyString]
           | w :: ws => String d w :: ws
           end
  end.

(** [sep.join(parts)] *)
Fixpoint join (sep : string) (parts : list string) : string :=
  match parts with
  | [] => EmptyString
  | [w] => w
  | w :: ws => w ++ sep ++ join sep ws
  end.

(** [s.rpartition(c)[2]]: the text after the last [c], or all of [s]. *)
Fixpoint after_last (c : ascii) (s : string) : string :=
  match s with
  | EmptyString => EmptyString
  | String d rest =>
      if char_in c rest then after_last c rest
      else if Ascii.eqb d c then rest else s
  end.

Definition is_upper (c : ascii) : bool :=
  let n := nat_of_ascii c in (65 <=? n)%nat && (n <=? 90)%nat.

(** [c.lower()], on the letters A to Z. *)
Definition lower_char (c : ascii) : ascii :=
  if is_upper c then ascii_of_nat (nat_of_ascii c + 32) else c.

Fixpoint lower (s : string) : string :=
  match s with
  | EmptyString => EmptyString
  | String c rest => String (lower_char c) (lower rest)
  end.

Fixpoint all_chars (p : ascii -> bool) (s : string) : bool :=
  match s with
  | EmptyString => true
  | String c rest => p c && all_chars p rest
  end.

Definition startswith (p s : string) : bool := String.prefix p s.

(** Truth value of a [str]: non-empty. *)
Definition nonempty (s : string) : bool :=
  match s with EmptyString => false | _ => true end.

(** [os.path.join(a, b)] on POSIX. *)
Definition path_join (a b : string) : string :=
  if startswith "/" b then b
  else if negb (nonempty a) then b
  else if String.eqb (after_last "/" a) "" && char_in "/" a then a ++ b
  else a ++ "/" ++ b.

End Py.

(** ** Exceptions *)

(** The exception classes [main] tells apart, each with its [str(e)]. *)
Inductive exn : Type :=
  | ValueError (msg : string)
  | AttributeError (msg : string)
  | ResourceNotFoundError (msg : string)
  | OtherError (msg : string).

Definition str_of_exn (e : exn) : string :=
  match e with
  | ValueError m | AttributeError m | ResourceNotFoundError m | OtherError m => m
  end.

(** ** [shlex.split] *)

Module Shlex.

(** The lexer's [state] attribute: [' '], ['a'], a quote character or the
    escape character.  [escapedstate] takes its values in the same type. *)
Inductive state : Type :=
  | InWhitespace
  | InWord
  | InQuote (q : ascii)
  | InEscape (e : ascii).

Definition whitespace : string :=
  String " " (String "009" (String "013" (String "010" EmptyString))).
Definition quotes : string := String "'" (String "034" EmptyString).
Definition escape : string := String "\" EmptyString.
Definition escapedquotes : string := String "034" EmptyString.
(** [shlex.split] sets [commenters] to [''] and leaves [punctuation_chars]
    empty. *)
Definition commenters : string := EmptyString.
Definition punctuation_chars : string := EmptyString.

(** [wordchars] in POSIX mode: letters, digits, underscore and the
    Latin-1 letters. *)
Definition is_wordchar (c : ascii) : bool :=
  let n := nat_of_ascii c in
  ((97 <=? n) && (n <=? 122) || (65 <=? n) && (n <=? 90) ||
   (48 <=? n) && (n <=? 57) || (n =? 95) ||
   (192 <=? n) && negb (n =? 215) && negb (n =? 247))%nat.

Definition push (tok : string) (c : ascii) : string :=
  tok ++ String c EmptyString.

Definition cons_token (tok : string) (r : exn + list string) : exn + list string :=
  match r with
  | inl e => inl e
  | inr toks => inr (tok :: toks)
  end.

(** What [read_token] hands back on [break]: the token, or [None] (which
    ends the iteration) when nothing was quoted and the token is empty. *)
Definition hand_back (quoted : bool) (tok : string) (later : exn + list string)
  : exn + list string :=
  if negb quoted && negb (Py.nonempty tok) then inr [] else cons_token tok later.

(** The character loop of [read_token], iterated by [__next__] until the
    end of the input.  [st] is [self.state], [tok] is [self.token];
    [esc] and [quoted] are the locals [escapedstate] and [quoted], which
    every call of [read_token] resets. *)
Fixpoint lex (st esc : state) (quoted : bool) (tok : string) (input : string)
  : exn + list string :=
  match input with
  | EmptyString =>
      match st with
      | InWhitespace | InWord => hand_back quoted tok (inr [])
      | InQuote _ => inl (ValueError "No closing quotation")
      | InEscape _ => inl (ValueError "No escaped character")
      end
  | String c rest =>
      match st with
      | InWhitespace =>
          if Py.char_in c whitespace then
            if Py.nonempty tok || quoted
            then hand_back quoted tok (lex InWhitespace InWhitespace false "" rest)
            else lex InWhitespace esc quoted tok rest
          else if Py.char_in c commenters then lex InWhitespace esc quoted tok rest
          else if Py.char_in c escape then lex (InEscape c) InWord quoted tok rest
          else if is_wordchar c then lex InWord esc quoted (String c "") rest
          else if Py.char_in c punctuation_chars then lex InWord esc quoted (String c "") rest
          else if Py.char_in c quotes then lex (InQuote c) esc quoted tok rest
          else lex InWord esc quoted (String c "") rest
      | InQuote q =>
          if Ascii.eqb c q then lex InWord esc true tok rest
          else if Py.char_in c escape && Py.char_in q escapedquotes
          then lex (InEscape c) (InQuote q) true tok rest
          else lex (InQuote q) esc true (push tok c) rest
      | InEscape e =>
          let tok' :=
            match esc with
            | InQuote q =>
                if negb (Ascii.eqb c e) && negb (Ascii.eqb c q) then push tok e else tok
            | _ => tok
            end in
          lex esc esc quoted (push tok' c) rest
      | InWord =>
          if Py.char_in c whitespace then
            if Py.nonempty tok || quoted
            then hand_back quoted tok (lex InWhitespace InWhitespace false "" rest)
            else lex InWhitespace esc quoted tok rest
          else if Py.char_in c commenters then lex InWord esc quoted tok rest
          else if Py.char_in c quotes then lex (InQuote c) esc quoted tok rest
          else if Py.char_in c escape then lex (InEscape c) InWord quoted tok rest
          else lex InWord esc quoted (push tok c) rest
      end
  end.

(** [shlex.split(s)] with the defaults [comments=False, posix=True]. *)
Definition split (s : string) : exn + list string :=
  lex InWhitespace InWhitespace false "" s.

(** A character with no meaning to the lexer: no blank, no quote, no
    backslash. *)
Definition plain (c : ascii) : bool :=
  negb (Py.char_in c whitespace) && negb (Py.char_in c quotes)
  && negb (Py.char_in c escape).

End Shlex.

(** ** [urllib.parse.urlparse] *)

Module UrlParse.

Record ParseResult : Type := mkParseResult {
  scheme : string;
  netloc : string;
  path : string;
  params : string;
  query : string;
  fragment : string;
}.

(** [_WHATWG_C0_CONTROL_OR_SPACE]: code points 0 to 32. *)
Definition c0_control_or_space : string :=
  string_of_list_ascii (List.map ascii_of_nat (List.seq 0 33)).

Definition is_alpha (c : ascii) : bool :=
  let n := nat_of_ascii c in
  ((97 <=? n) && (n <=? 122) || (65 <=? n) && (n <=? 90))%nat.

Definition scheme_chars : string :=
  "abcdefghijklmnopqrstuvwxyzABCDEFGHIJKLMNOPQRSTUVWXYZ0123456789+-.".

Definition uses_params : list string :=
  [""; "ftp"; "hdl"; "prospero"; "http"; "imap"; "https"; "shttp"; "rtsp";
   "rtspu"; "sip"; "sips"; "mms"; "sftp"; "tel"].

(** The text before the first character of [stop], and the text from that
    character on. *)
Fixpoint break_at (stop : string) (s : string) : string * string :=
  match s with
  | EmptyString => (EmptyString, EmptyString)
  | String c rest =>
      if Py.char_in c stop then (EmptyString, s)
      else let '(a, b) := break_at stop rest in (String c a, b)
  end.

(** The text before the last [c], and the text from the last [c] on;
    all of [s] comes second when [c] does not occur. *)
Fixpoint rbreak (c : ascii) (s : string) : string * string :=
  match s with
  | EmptyString => (EmptyString, EmptyString)
  | String d rest =>
      if Py.char_in c rest then let '(a, b) := rbreak c rest in (String d a, b)
      else (EmptyString, s)
  end.

(** [_splitnetloc(url, 2)], for a [url] that starts with two slashes. *)
Definition splitnetloc (url : string) : string * string :=
  match url with
  | String _ (String _ rest) => break_at "/?#" rest
  | _ => (EmptyString, url)
  end.

(** The first half of [urlsplit]: the url without leading blanks and
    without tabs and line breaks, then its scheme, whether it has a
    netloc, the netloc, and what is left. *)
Definition split_scheme (url : string) : string * string :=
  let '(before, found, after) := Py.partition ":" url in
  match before with
  | String c0 _ =>
      if found && is_alpha c0 && Py.all_chars (fun c => Py.char_in c scheme_chars) before
      then (Py.lower before, after)
      else (EmptyString, url)
  | EmptyString => (EmptyString, url)
  end.

(** [_UNSAFE_URL_BYTES_TO_REMOVE]: tab, carriage return, line feed. *)
Definition unsafe_url_bytes_to_remove : list ascii := ["009"; "013"; "010"]%char.

(** [for b in _UNSAFE_URL_BYTES_TO_REMOVE: url = url.replace(b, "")] *)
Definition remove_unsafe (url : string) : string :=
  fold_left (fun u b => Py.remove_char b u) unsafe_url_bytes_to_remove url.

Definition split_authority (url : string) : string * bool * string * string :=
  let url := Py.lstrip c0_control_or_space url in
  let url := remove_unsafe url in
  let '(sch, url) := split_scheme url in
  let has_netloc := Py.startswith "//" url in
  let '(nl, url) := if has_netloc then splitnetloc url else (EmptyString, url) in
  (sch, has_netloc, nl, url).

(** The second half: fragment, then query. *)
Definition split_query_fragment (url : string) : string * string * string :=
  let '(url, frag) :=
    if Py.char_in "#" url
    then let '(a, _, b) := Py.partition "#" url in (a, b)
    else (url, EmptyString) in
  let '(url, qry) :=
    if Py.char_in "?" url
    then let '(a, _, b) := Py.partition "?" url in (a, b)
    else (url, EmptyString) in
  (url, qry, frag).

Section Bracketed.

(** [_check_bracketed_host] validates an IP literal with [ipaddress] and
    [re]; it is taken as given.  [Some msg] stands for
    [raise ValueError(msg)]. *)
Variable check_bracketed_host : string -> option string.

Definition check_bracketed_netloc (nl : string) : option string :=
  let hostname_and_port := Py.after_last "@" nl in
  let '(before_bracket, have_open_br, bracketed) := Py.partition "[" hostname_and_port in
  if have_open_br then
    if Py.nonempty before_bracket then Some "Invalid IPv6 URL"
    else
      let '(hostname, _, port) := Py.partition "]" bracketed in
      if Py.nonempty port && negb (Py.startswith ":" port) then Some "Invalid IPv6 URL"
      else check_bracketed_host hostname
  else
    let '(hostname, _, _) := Py.partition ":" hostname_and_port in
    check_bracketed_host hostname.

(** The checks [urlsplit] makes on a netloc it has split off. *)
Definition netloc_error (has_netloc : bool) (nl : string) : option string :=
  if has_netloc then
    if (Py.char_in "[" nl && negb (Py.char_in "]" nl)) ||
       (Py.char_in "]" nl && negb (Py.char_in "[" nl))
    then Some "Invalid IPv6 URL"
    else if Py.char_in "[" nl && Py.char_in "]" nl
    then check_bracketed_netloc nl
    else None
  else None.

(** [urlsplit(url)] on a [str], with the default [scheme=''] and
    [allow_fragments=True].  [_checknetloc] only rejects a netloc whose
    NFKC form gains one of [/?#@:]; no code point below 256 does that, so
    it is a no-op here. *)
Definition urlsplit (url : string)
  : exn + (string * string * string * string * string) :=
  let '(sch, has_netloc, nl, url) := split_authority url in
  match netloc_error has_netloc nl with
  | Some msg => inl (ValueError msg)
  | None =>
      let '(url, qry, frag) := split_query_fragment url in
      inr (sch, nl, url, qry, frag)
  end.

(** [_splitparams(url)] *)
Definition splitparams (url : string) : string * string :=
  if Py.char_in "/" url then
    let '(head, tail) := rbreak "/" url in
    let '(a, found, b) := Py.partition ";" tail in
    if found then (head ++ a, b) else (url, EmptyString)
  else
    let '(a, _, b) := Py.partition ";" url in (a, b).

(** [urlparse(url)] on a [str]. *)
Definition urlparse (url : string) : exn + ParseResult :=
  match urlsplit url with
  | inl e => inl e
  | inr (sch, nl, url, qry, frag) =>
      let '(url, prm) :=
        if existsb (String.eqb sch) uses_params && Py.char_in ";" url
        then splitparams url
        else (url, EmptyString) in
      inr (mkParseResult sch nl url prm qry frag)
  end.

End Bracketed.

(** The [hostname] attribute of a parse result ([_hostinfo], then
    lower-cased up to a zone separator); [None] for an empty host.
    [main] does not read it: it reads [netloc]. *)
Definition hostname (r : ParseResult) : option string :=
  let hostinfo := Py.after_last "@" (netloc r) in
  let '(_, have_open_br, bracketed) := Py.partition "[" hostinfo in
  let host :=
    if have_open_br then let '(h, _, _) := Py.partition "]" bracketed in h
    else let '(h, _, _) := Py.partition ":" hostinfo in h in
  if Py.nonempty host then
    let '(h, found, zone) := Py.partition "%" host in
    Some (Py.lower h ++ (if found then "%" else "") ++ zone)
  else None.

End UrlParse.

(** ** Requests and responses *)

(** What [req.get_json()] can hand back, and so what a field of the
    request can be.  [JNull] is Python's [None]; numbers are the integer
    ones. *)
#[warnings="-register-all"]
Inductive json : Type :=
  | JNull
  | JBool (b : bool)
  | JInt (n : Z)
  | JStr (s : string)
  | JList (l : list json)
  | JDict (d : gmap string json).

(** Python's truth value of an object. *)
Definition truthy (v : json) : bool :=
  match v with
  | JNull => false
  | JBool b => b
  | JInt n => negb (n =? 0)%Z
  | JStr s => Py.nonempty s
  | JList l => match l with [] => false | _ => true end
  | JDict d => negb (bool_decide (d = ∅))
  end.

Definition type_name (v : json) : string :=
  match v with
  | JNull => "NoneType"
  | JBool _ => "bool"
  | JInt _ => "int"
  | JStr _ => "str"
  | JList _ => "list"
  | JDict _ => "dict"
  end.

Definition no_attribute (v : json) (attr : string) : exn :=
  AttributeError ("'" ++ type_name v ++ "' object has no attribute '" ++ attr ++ "'").

Record HttpRequest : Type := mkRequest {
  (** the parsed body, or [None] when [get_json] raises [ValueError]
      (no body, or a body that is not JSON) *)
  get_json : option json;
  (** the query parameters *)
  params : gmap string string;
}.

Record HttpResponse : Type := mkResponse {
  body : string;
  status_code : Z;
}.

(** ** The world [main] runs in *)

Abbreviation bytes := (list Byte.byte).

(** The calls [main] makes on its collaborators, with what they gave
    back, in the order they were made. *)
Inductive event : Type :=
  | EvMkdtemp (d : string)
  | EvBlobClient (url : string)
  | EvDownload (url : string) (r : exn + bytes)
  | EvRun (argv : list string) (r : exn + Z * string)
  | EvUpload (url : string) (overwrite : bool) (data : bytes) (r : option exn)
  | EvRmtree (d : string).

Record World : Type := mkWorld {
  (** directories and files of the local filesystem *)
  dirs : gset string;
  files : gmap string bytes;
  (** the blob storage, by blob URL *)
  blobs : gmap string bytes;
  trace : list event;
}.

(** How the collaborators behave during one run.  An exception a
    collaborator raises is given as [inl e] or [Some e]. *)
Record Env : Type := mkEnv {
  (** [_check_bracketed_host] of [urllib.parse] *)
  check_bracketed_host : string -> option string;
  (** [os.getcwd()], [shutil.which('ffmpeg')], [os.path.exists] *)
  getcwd : string;
  which_ffmpeg : option string;
  path_exists : string -> bool;
  (** the directory [tempfile.mkdtemp(dir='/tmp')] creates *)
  mkdtemp : exn + string;
  (** [ManagedIdentityCredential()] and [BlobClient.from_blob_url] *)
  new_credential : option exn;
  from_blob_url : string -> option exn;
  (** a failure of [download_blob] or [upload_blob] other than the ones
      the storage content decides *)
  download_fault : string -> option exn;
  upload_fault : string -> option exn;
  (** [subprocess.run(argv, capture_output=True, text=True)] on the
      current files: the return code, the captured standard error and
      the files the process leaves *)
  subprocess_run : list string -> gmap string bytes -> exn + Z * string * gmap string bytes;
}.

(** ** Control flow: values, [return] and exceptions over the world *)

Inductive outcome (A : Type) : Type :=
  | Value (a : A)
  | Returned (r : HttpResponse)
  | Raised (e : exn).
Arguments Value {A} a.
Arguments Returned {A} r.
Arguments Raised {A} e.

Definition M (A : Type) : Type := World -> outcome A * World.

Definition ret {A} (a : A) : M A := fun w => (Value a, w).
Definition return_ {A} (r : HttpResponse) : M A := fun w => (Returned r, w).
Definition raise {A} (e : exn) : M A := fun w => (Raised e, w).

Definition bind {A B} (m : M A) (k : A -> M B) : M B :=
  fun w =>
    match m w with
    | (Value a, w') => k a w'
    | (Returned r, w') => (Returned r, w')
    | (Raised e, w') => (Raised e, w')
    end.

Notation "'let*' x ':=' m 'in' k" := (bind m (fun x => k))
  (at level 10, x name, m at level 100, k at level 200).
Notation "m ';;' k" := (bind m (fun _ => k))
  (at level 100, k at level 200, right associativity).

(** [try: body / except Exception as e: handler e] *)
Definition try_except {A} (body : M A) (handler : exn -> M A) : M A :=
  fun w =>
    match body w with
    | (Raised e, w') => handler e w'
    | r => r
    end.

(** [try: body / finally: cleanup] *)
Definition try_finally {A} (body : M A) (cleanup : M unit) : M A :=
  fun w =>
    let '(r, w') := body w in
    match cleanup w' with
    | (Value _, w'') => (r, w'')
    | (Returned r', w'') => (Returned r', w'')
    | (Raised e, w'') => (Raised e, w'')
    end.

Definition lift {A} (r : exn + A) : M A :=
  match r with
  | inl e => raise e
  | inr a => ret a
  end.

Definition check (o : option exn) : M unit :=
  match o with
  | Some e => raise e
  | None => ret tt
  end.

Definition emit (ev : event) : M unit :=
  fun w => (Value tt, mkWorld (dirs w) (files w) (blobs w) (trace w ++ [ev])).

Definition when (b : bool) (m : M unit) : M unit :=
  if b then m else ret tt.

(** ** [main] *)

(** The locator lines 56 to 67 read off a parsed URL. *)
Record StorageLocator : Type := mkLocator {
  accountName : string;
  containerName : string;
  objectPath : string;
}.

(** [netloc.split('.')[0]] *)
Definition account_of (netloc : string) : string :=
  hd EmptyString (Py.split "." netloc).

(** [path.strip('/').split('/')] *)
Definition path_parts_of (path : string) : list string :=
  Py.split "/" (Py.strip "/" path).

(** Lines 56 to 67; [None] is the early return of line 64. *)
Definition locate (parsed_url : UrlParse.ParseResult) : option StorageLocator :=
  let input_account_name := account_of (UrlParse.netloc parsed_url) in
  let path_parts := path_parts_of (UrlParse.path parsed_url) in
  if match path_parts with [] => true | _ => false end || (length path_parts <? 2)%nat
  then None
  else Some (mkLocator input_account_name
                       (hd EmptyString path_parts)
                       (Py.join "/" (tl path_parts))).

(** The locator parser on the text of a URL: [urlparse], then lines 56
    to 67. *)
Definition parse_locator (check_bracketed_host : string -> option string) (url : string)
  : exn + option StorageLocator :=
  match UrlParse.urlparse check_bracketed_host url with
  | inl e => inl e
  | inr parsed_url => inr (locate parsed_url)
  end.

Definition blob_url (account container blob : string) : string :=
  "https://" ++ account ++ ".blob.core.windows.net/" ++ container ++ "/" ++ blob.

(** [req_body.get(key) if req_body else req.params.get(key)] *)
Definition field (req : HttpRequest) (key : string) : exn + json :=
  let req_body := default JNull (get_json req) in
  if truthy req_body then
    match req_body with
    | JDict d => inr (default JNull (d !! key))
    | other => inl (no_attribute other "get")
    end
  else
    inr (match params req !! key with Some s => JStr s | None => JNull end).

Section Main.

Variable env : Env.

(** [urlparse(v)] on a field that passed line 34: a value that is not a
    [str] is sent to [decode]. *)
Definition urlparse (v : json) : M UrlParse.ParseResult :=
  match v with
  | JStr url => lift (UrlParse.urlparse (check_bracketed_host env) url)
  | other => raise (no_attribute other "decode")
  end.

(** [shlex.split(v)] on a field that passed line 34: a value that is not
    a [str] is read as a stream. *)
Definition shlex_split (v : json) : M (list string) :=
  match v with
  | JStr s => lift (Shlex.split s)
  | other => raise (no_attribute other "read")
  end.

Definition tempfile_mkdtemp : M string :=
  let* d := lift (mkdtemp env) in
  fun w => (Value d, mkWorld ({[d]} ∪ dirs w) (files w) (blobs w) (trace w ++ [EvMkdtemp d])).

Definition write_file (p : string) (data : bytes) : M unit :=
  fun w => (Value tt, mkWorld (dirs w) (<[p:=data]> (files w)) (blobs w) (trace w)).

(** [open(p, 'rb')] and reading it *)
Definition read_file (p : string) : M bytes :=
  fun w =>
    match files w !! p with
    | Some data => (Value data, w)
    | None => (Raised (OtherError ("[Errno 2] No such file or directory: '" ++ p ++ "'")), w)
    end.

Definition blob_client (url : string) : M unit :=
  emit (EvBlobClient url) ;; check (from_blob_url env url).

(** What [download_blob().readall()] gives on [url]. *)
Definition download_result (w : World) (url : string) : exn + bytes :=
  match download_fault env url with
  | Some e => inl e
  | None =>
      match blobs w !! url with
      | Some data => inr data
      | None => inl (ResourceNotFoundError "The specified blob does not exist.")
      end
  end.

Definition download_blob (url : string) : M bytes :=
  fun w => (emit (EvDownload url (download_result w url)) ;; lift (download_result w url)) w.

(** What [upload_blob(data, overwrite=overwrite)] answers on [url]. *)
Definition upload_result (w : World) (url : string) (overwrite : bool) : option exn :=
  match upload_fault env url with
  | Some e => Some e
  | None =>
      if overwrite || negb (bool_decide (is_Some (blobs w !! url))) then None
      else Some (OtherError "The specified blob already exists.")
  end.

Definition upload_blob (url : string) (data : bytes) (overwrite : bool) : M unit :=
  fun w =>
    let r := upload_result w url overwrite in
    let w' :=
      match r with
      | None => mkWorld (dirs w) (files w) (<[url:=data]> (blobs w)) (trace w)
      | Some _ => w
      end in
    (emit (EvUpload url overwrite data r) ;; check r) w'.

Definition run (argv : list string) : M (Z * string) :=
  fun w =>
    match subprocess_run env argv (files w) with
    | inl e => (emit (EvRun argv (inl e)) ;; raise e) w
    | inr (returncode, stderr, files') =>
        (emit (EvRun argv (inr (returncode, stderr))) ;; ret (returncode, stderr))
          (mkWorld (dirs w) files' (blobs w) (trace w))
    end.

Definition under (d p : string) : bool := Py.startswith (d ++ "/") p.

(** [shutil.rmtree(d, ignore_errors=True)], when the removal goes
    through; [ignore_errors] only silences one that does not. *)
Definition rmtree (d : string) : M unit :=
  fun w =>
    (Value tt,
     mkWorld (dirs w ∖ {[d]})
             (filter (fun kv => under d kv.1 = false) (files w))
             (blobs w) (trace w ++ [EvRmtree d])).

Definition ffmpeg_locations : list (option string) :=
  [ Some (Py.path_join (Py.path_join (getcwd env) "bin") "ffmpeg");
    Some "/home/site/wwwroot/bin/ffmpeg";
    which_ffmpeg env;
    Some "/usr/bin/ffmpeg";
    Some "/usr/local/bin/ffmpeg" ].

(** The loop over [ffmpeg_locations]: the first location that is set and
    exists. *)
Fixpoint find_ffmpeg (locations : list (option string)) : option string :=
  match locations with
  | [] => None
  | location :: rest =>
      match location with
      | Some l => if Py.nonempty l && path_exists env l then Some l else find_ffmpeg rest
      | None => find_ffmpeg rest
      end
  end.

(** Lines 118 to 128: the argument list. *)
Definition build_cmd_parts (ffmpeg_path temp_input_path : string)
    (ffmpeg_command : json) (temp_output_path : string) : M (list string) :=
  let cmd_parts := [ffmpeg_path; "-i"; temp_input_path] in
  let* cmd_parts :=
    (if truthy ffmpeg_command
     then let* words := shlex_split ffmpeg_command in ret (cmd_parts ++ words)%list
     else ret cmd_parts) in
  ret (cmd_parts ++ [temp_output_path])%list.

(** Lines 51 to 92: locate and download the input blob. *)
Definition download_stage (input_blob_url : json) (temp_input_path : string) : M unit :=
  try_except
    (let* parsed_url := urlparse input_blob_url in
     match locate parsed_url with
     | None =>
         return_ (mkResponse
           "Invalid blob URL format. URL must include container name and blob path." 400)
     | Some loc =>
         check (new_credential env) ;;
         let input_blob_url_for_client :=
           blob_url (accountName loc) (containerName loc) (objectPath loc) in
         blob_client input_blob_url_for_client ;;
         try_except
           (write_file temp_input_path [] ;;
            let* data := download_blob input_blob_url_for_client in
            write_file temp_input_path data)
           (fun e =>
              match e with
              | ResourceNotFoundError _ =>
                  return_ (mkResponse
                    ("Input blob not found at " ++ containerName loc ++ "/" ++ objectPath loc)
                    404)
              | _ =>
                  return_ (mkResponse ("Error downloading input file: " ++ str_of_exn e) 500)
              end)
     end)
    (fun e =>
       return_ (mkResponse
         ("Unexpected error accessing blob storage: " ++ str_of_exn e) 500)).

(** Lines 95 to 146: find the binary and run it. *)
Definition ffmpeg_stage (ffmpeg_command : json) (temp_input_path temp_output_path : string)
  : M unit :=
  try_except
    (match find_ffmpeg ffmpeg_locations with
     | None => return_ (mkResponse "FFmpeg binary not found" 500)
     | Some ffmpeg_path =>
         let* cmd_parts :=
           build_cmd_parts ffmpeg_path temp_input_path ffmpeg_command temp_output_path in
         let* process := run cmd_parts in
         when (negb (process.1 =? 0)%Z)
           (return_ (mkResponse ("FFmpeg error: " ++ process.2) 500))
     end)
    (fun e => return_ (mkResponse ("Error executing FFmpeg: " ++ str_of_exn e) 500)).

(** The blob line 158 names for a parsed destination URL. *)
Definition output_blob_url_of (output_parsed_url : UrlParse.ParseResult) : string :=
  let output_account_name := account_of (UrlParse.netloc output_parsed_url) in
  let output_container_path :=
    hd EmptyString (path_parts_of (UrlParse.path output_parsed_url)) in
  blob_url output_account_name output_container_path "output.mp4".

(** Lines 149 to 174: upload the output, then remove the directory. *)
Definition upload_stage (output_container_name : json) (temp_dir temp_output_path : string)
  : M unit :=
  try_finally
    (try_except
       (let* output_parsed_url := urlparse output_container_name in
        let output_blob_url := output_blob_url_of output_parsed_url in
        blob_client output_blob_url ;;
        let* output_file := read_file temp_output_path in
        upload_blob output_blob_url output_file true)
       (fun e =>
          return_ (mkResponse
            ("Video processing completed but upload failed: " ++ str_of_exn e) 500)))
    (rmtree temp_dir).

Definition main (req : HttpRequest) : M HttpResponse :=
  let* input_blob_url := lift (field req "inputBlobUrl") in
  let* output_container_name := lift (field req "outputContainerName") in
  let* ffmpeg_command := lift (field req "ffmpegCommand") in
  when (negb (truthy input_blob_url) || negb (truthy output_container_name)
        || negb (truthy ffmpeg_command))
    (return_ (mkResponse
       "Please pass inputBlobUrl, outputContainerName, and ffmpegCommand in the request body"
       400)) ;;
  let* temp_dir := tempfile_mkdtemp in
  let temp_input_path := Py.path_join temp_dir "input.mp4" in
  let temp_output_path := Py.path_join temp_dir "output.mp4" in
  download_stage input_blob_url temp_input_path ;;
  ffmpeg_stage ffmpeg_command temp_input_path temp_output_path ;;
  upload_stage output_container_name temp_dir temp_output_path ;;
  ret (mkResponse "Video processed successfully" 200).

(** What the caller of [main] sees: a response, or an exception that
    escaped. *)
Inductive result : Type :=
  | Response (r : HttpResponse)
  | Crash (e : exn).

Definition call (req : HttpRequest) (w : World) : result * World :=
  match main req w with
  | (Value r, w') | (Returned r, w') => (Response r, w')
  | (Raised e, w') => (Crash e, w')
  end.

(** The collaborator calls one run of [main] makes. *)
Definition events (req : HttpRequest) (w : World) : list event :=
  drop (length (trace w)) (trace (call req w).2).

End Main.

Definition is_upload (ev : event) : bool :=
  match ev with EvUpload _ _ _ _ => true | _ => false end.

Definition status_of (r : result) : option Z :=
  match r with
  | Response resp => Some (status_code resp)
  | Crash _ => None
  end.

(** The path's segments once the empty leading and trailing ones are
    discarded, in the words of the design's locator parser: split on the
    slash, then drop the empty segments at both ends. *)
Fixpoint drop_empty_front (l : list string) : list string :=
  match l with
  | EmptyString :: rest => drop_empty_front rest
  | _ => l
  end.

Fixpoint drop_empty_back (l : list string) : list string :=
  match l with
  | [] => []
  | x :: rest =>
      match drop_empty_back rest with
      | [] => if Py.nonempty x then [x] else []
      | kept => x :: kept
      end
  end.

Definition segments (path : string) : list string :=
  drop_empty_back (drop_empty_front (Py.split "/" path)).

(** A URL written as a scheme, a host and a path. *)
Definition url_of (sch host p : string) : string :=
  sch ++ "://" ++ host ++ "/" ++ p.

(** A scheme as [urlsplit] accepts one: a letter, then letters, digits
    and [+-.]. *)
Definition scheme_ok (sch : string) : bool :=
  match sch with
  | String c _ =>
      UrlParse.is_alpha c
      && Py.all_chars (fun c => Py.char_in c UrlParse.scheme_chars) sch
  | EmptyString => false
  end.

(** A character of a host name: none of the delimiters of a URL, no
    bracket, no tab and no line break. *)
Definition host_char (c : ascii) : bool :=
  negb (Py.char_in c "/?#[]@:")
  && negb (existsb (Ascii.eqb c) UrlParse.unsafe_url_bytes_to_remove).

Definition host_ok (host : string) : bool := Py.all_chars host_char host.

(** ** A deployment to run the model on *)

Module Scenario.

Definition dquote : string := String "034" EmptyString.

(** The instruction [-vf] followed by [scale=1280:720] in double quotes. *)
Definition scale_instruction : string :=
  "-vf " ++ dquote ++ "scale=1280:720" ++ dquote.

(** A transcoder that reads the file after [-i] and writes it, with one
    byte appended, to the last argument. *)
Definition stamping_ffmpeg (argv : list string) (fs : gmap string bytes)
  : exn + Z * string * gmap string bytes :=
  match fs !! nth 2 argv EmptyString with
  | Some data => inr (0%Z, EmptyString, <[default EmptyString (last argv) := (data ++ [Byte.x2a])%list]> fs)
  | None => inr (1%Z, "No such file or directory", fs)
  end.

(** A transcoder that rejects its arguments. *)
Definition failing_ffmpeg (argv : list string) (fs : gmap string bytes)
  : exn + Z * string * gmap string bytes :=
  inr (1%Z, "Unrecognized option", fs).

Definition platform
    (ffmpeg : list string -> gmap string bytes -> exn + Z * string * gmap string bytes)
  : Env :=
  mkEnv (fun _ => None) "/home/site/wwwroot" None
        (fun p => String.eqb p "/usr/bin/ffmpeg")
        (inr "/tmp/tmpk3v9q") None (fun _ => None) (fun _ => None) (fun _ => None)
        ffmpeg.

Definition request (input output command : string) : HttpRequest :=
  mkRequest
    (Some (JDict {[ "inputBlobUrl" := JStr input;
                    "outputContainerName" := JStr output;
                    "ffmpegCommand" := JStr command ]}))
    ∅.

Definition source_url : string := "https://acc.blob.core.windows.net/videos/in.mp4".
Definition container_url : string := "https://acc.blob.core.windows.net/videos".
Definition output_url : string := "https://acc.blob.core.windows.net/videos/output.mp4".

(** A storage that holds the source video only. *)
Definition storage : World :=
  mkWorld ∅ ∅ {[ source_url := [Byte.x01; Byte.x02] ]} [].

(** A storage whose only blob is the [output.mp4] of the container. *)
Definition storage_with_output : World :=
  mkWorld ∅ ∅ {[ output_url := [Byte.x01] ]} [].

Definition empty_storage : World := mkWorld ∅ ∅ ∅ [].

Definition transcode_request : HttpRequest :=
  request source_url container_url "-c copy".

(** The source is the very blob the upload writes. *)
Definition reprocess_request : HttpRequest :=
  request output_url container_url "-c copy".

(** The source URL names a container and no blob. *)
Definition container_only_request : HttpRequest :=
  request container_url container_url "-c copy".

(** The source URL carries user information. *)
Definition userinfo_url : string := "https://user@acc.blob.core.windows.net/videos/in.mp4".
Definition userinfo_request : HttpRequest :=
  request userinfo_url container_url "-c copy".

(** The body is a JSON array. *)
Definition array_request : HttpRequest :=
  mkRequest (Some (JList [JInt 1])) ∅.

(** The body is the empty JSON array; the fields come as query
    parameters. *)
Definition empty_array_request : HttpRequest :=
  mkRequest (Some (JList []))
    {[ "inputBlobUrl" := source_url;
       "outputContainerName" := container_url;
       "ffmpegCommand" := "-c copy" ]}.

End Scenario.

(** ** Reading the order of the calls *)

Definition is_run (ev : event) : bool :=
  match ev with EvRun _ _ => true | _ => false end.

(** A process that ran and exited with zero. *)
Definition is_clean_exit (ev : event) : bool :=
  match ev with
  | EvRun _ (inr (returncode, _)) => (returncode =? 0)%Z
  | _ => false
  end.

(** A download that handed back the bytes of the blob. *)
Definition is_download_ok (ev : event) : bool :=
  match ev with EvDownload _ (inr _) => true | _ => false end.

(** Every call that is a [later] one comes after a call that is an
    [earlier] one; [seen] tells whether an [earlier] one came before the
    list. *)
Fixpoint each_preceded (earlier later : event -> bool) (seen : bool) (l : list event)
  : bool :=
  match l with
  | [] => true
  | ev :: rest =>
      (if later ev then seen else true)
      && each_preceded earlier later (seen || earlier ev) rest
  end.

(** How many of the calls are of one kind. *)
Definition count_calls (kind : event -> bool) (l : list event) : nat :=
  length (List.filter kind l).

(** A download, whatever its result. *)
Definition is_download (ev : event) : bool :=
  match ev with EvDownload _ _ => true | _ => false end.

(** An upload the storage accepted. *)
Definition is_upload_ok (ev : event) : bool :=
  match ev with EvUpload _ _ _ None => true | _ => false end.


(** ** Deployments in which a collaborator fails *)

Module Faults.

(** A transcoder that copies the file after [-i] to the last argument. *)
Definition copying_ffmpeg (argv : list string) (fs : gmap string bytes)
  : exn + Z * string * gmap string bytes :=
  match fs !! nth 2 argv EmptyString with
  | Some data => inr (0%Z, EmptyString, <[default EmptyString (last argv) := data]> fs)
  | None => inr (1%Z, "No such file or directory", fs)
  end.

(** A transcoder that exits with zero and writes nothing. *)
Definition silent_ffmpeg (argv : list string) (fs : gmap string bytes)
  : exn + Z * string * gmap string bytes :=
  inr (0%Z, EmptyString, fs).

(** A binary the system refuses to launch. *)
Definition unlaunchable_ffmpeg (argv : list string) (fs : gmap string bytes)
  : exn + Z * string * gmap string bytes :=
  inl (OtherError "[Errno 13] Permission denied").

(** No candidate location holds the binary. *)
Definition no_binary : Env :=
  mkEnv (fun _ => None) "/home/site/wwwroot" None (fun _ => false)
        (inr "/tmp/tmpk3v9q") None (fun _ => None) (fun _ => None) (fun _ => None)
        Scenario.stamping_ffmpeg.


(** The storage refuses the download. *)
Definition download_refused : Env :=
  mkEnv (fun _ => None) "/home/site/wwwroot" None
        (fun p => String.eqb p "/usr/bin/ffmpeg")
        (inr "/tmp/tmpk3v9q") None (fun _ => None)
        (fun _ => Some (OtherError "AuthorizationPermissionMismatch")) (fun _ => None)
        Scenario.stamping_ffmpeg.

(** The storage refuses the upload. *)
Definition upload_refused : Env :=
  mkEnv (fun _ => None) "/home/site/wwwroot" None
        (fun p => String.eqb p "/usr/bin/ffmpeg")
        (inr "/tmp/tmpk3v9q") None (fun _ => None) (fun _ => None)
        (fun _ => Some (OtherError "AuthorizationPermissionMismatch"))
        Scenario.stamping_ffmpeg.

(** No temporary directory can be created. *)
Definition no_tempdir : Env :=
  mkEnv (fun _ => None) "/home/site/wwwroot" None
        (fun p => String.eqb p "/usr/bin/ffmpeg")
        (inl (OtherError "[Errno 28] No space left on device")) None
        (fun _ => None) (fun _ => None) (fun _ => None)
        Scenario.stamping_ffmpeg.

(** The deployment of [Scenario] with its transcoder, and with each of
    the transcoders above. *)
Definition healthy : Env := Scenario.platform Scenario.stamping_ffmpeg.
Definition copying : Env := Scenario.platform copying_ffmpeg.
Definition silent : Env := Scenario.platform silent_ffmpeg.
Definition unlaunchable : Env := Scenario.platform unlaunchable_ffmpeg.

(** The instruction opens a quote and does not close it. *)
Definition open_quote_request : HttpRequest :=
  Scenario.request Scenario.source_url Scenario.container_url
    ("-vf " ++ Scenario.dquote ++ "scale=1280:720").

(** The source URL carries a query string and a fragment. *)
Definition signed_url : string :=
  "https://acc.blob.core.windows.net/videos/in.mp4?sv=2022&sig=abc#t=10".

End Faults.

(** * Properties *)

(** ** Text *)

Lemma append_nil_l (s : string) : "" ++ s = s.
Proof. reflexivity. Qed.

Lemma append_cons (c : ascii) (s t : string) : String c s ++ t = String c (s ++ t).
Proof. reflexivity. Qed.

Lemma append_nil_r (s : string) : s ++ "" = s.
Proof.
  induction s as [|c s IH]; [reflexivity |].
  rewrite append_cons. now rewrite IH.
Qed.

Lemma append_assoc (a b c : string) : (a ++ b) ++ c = a ++ (b ++ c).
Proof.
  induction a as [|x a IH]; [reflexivity |].
  rewrite !append_cons. now rewrite IH.
Qed.

Lemma char_in_append (c : ascii) (a b : string) :
  Py.char_in c (a ++ b) = Py.char_in c a || Py.char_in c b.
Proof.
  induction a as [|x a IH]; [reflexivity |].
  rewrite append_cons. simpl.
  destruct (Ascii.eqb c x); [reflexivity | exact IH].
Qed.

Lemma char_in_cons (c d : ascii) (s : string) :
  Py.char_in c (String d s) = if Ascii.eqb c d then true else Py.char_in c s.
Proof. reflexivity. Qed.

(** ** The tokenizer *)

Module ShlexFacts.
Import Shlex.

Lemma plain_inv c :
  plain c = true ->
  Py.char_in c whitespace = false /\ Py.char_in c quotes = false
  /\ Py.char_in c escape = false.
Proof.
  unfold plain. intros H.
  destruct (Py.char_in c whitespace), (Py.char_in c quotes), (Py.char_in c escape);
    simpl in H; try discriminate; auto.
Qed.

Lemma push_append tok c s : push tok c ++ s = tok ++ String c s.
Proof. unfold push. now rewrite append_assoc. Qed.

(** Inside a word, plain characters accumulate. *)
Lemma lex_word_plain (w : string) :
  forall esc quoted tok r,
    Py.all_chars plain w = true ->
    lex InWord esc quoted tok (w ++ r) = lex InWord esc quoted (tok ++ w) r.
Proof.
  induction w as [|c w IH]; intros esc quoted tok r Hw.
  - now rewrite append_nil_l, append_nil_r.
  - simpl in Hw. apply andb_prop in Hw as [Hc Hw].
    destruct (plain_inv c Hc) as (Hws & Hq & He).
    rewrite append_cons. cbn [lex]. rewrite Hws, Hq, He.
    cbn [commenters Py.char_in].
    rewrite IH by exact Hw. now rewrite push_append.
Qed.

(** The first plain character after blank space opens a word. *)
Lemma lex_open_word c esc quoted tok r :
  plain c = true ->
  lex InWhitespace esc quoted tok (String c r) = lex InWord esc quoted (String c "") r.
Proof.
  intros Hc. destruct (plain_inv c Hc) as (Hws & Hq & He).
  cbn [lex]. rewrite Hws, Hq, He. cbn [commenters punctuation_chars Py.char_in].
  now destruct (is_wordchar c).
Qed.

(** Inside quotes every character but the closing quote (and, between
    double quotes, the backslash) is kept as it is; the closing quote goes
    back to the word, now marked as quoted. *)
Lemma lex_quoted_body (q : ascii) (s : string) :
  forall esc quoted tok r,
    Py.char_in q s = false ->
    (Py.char_in q escapedquotes = true -> Py.char_in "\" s = false) ->
    lex (InQuote q) esc quoted tok (s ++ String q r) = lex InWord esc true (tok ++ s) r.
Proof.
  induction s as [|c s IH]; intros esc quoted tok r Hq He.
  - rewrite append_nil_l, append_nil_r. cbn [lex]. now rewrite Ascii.eqb_refl.
  - rewrite append_cons. cbn [lex].
    rewrite char_in_cons in Hq.
    destruct (Ascii.eqb q c) eqn:Hqc; [discriminate |].
    rewrite (Ascii.eqb_sym c q), Hqc.
    assert (Hesc : Py.char_in c escape && Py.char_in q escapedquotes = false).
    { destruct (Py.char_in q escapedquotes); [| apply andb_false_r].
      specialize (He eq_refl). rewrite char_in_cons in He.
      rewrite andb_true_r. unfold escape. rewrite char_in_cons.
      rewrite (Ascii.eqb_sym c "\").
      destruct (Ascii.eqb "\" c); [discriminate | reflexivity]. }
    rewrite Hesc. rewrite IH.
    + now rewrite push_append.
    + exact Hq.
    + intros Hd. specialize (He Hd). rewrite char_in_cons in He.
      destruct (Ascii.eqb "\" c); [discriminate | exact He].
Qed.

Lemma hand_back_token quoted tok later :
  Py.nonempty tok || quoted = true -> hand_back quoted tok later = cons_token tok later.
Proof.
  unfold hand_back. destruct quoted, (Py.nonempty tok); simpl; intros H;
    try discriminate; reflexivity.
Qed.

(** A blank ends the word that was being read. *)
Lemma lex_word_blank esc quoted tok r :
  Py.nonempty tok || quoted = true ->
  lex InWord esc quoted tok (String " " r)
  = cons_token tok (lex InWhitespace InWhitespace false "" r).
Proof.
  intros H. cbn [lex]. change (Py.char_in " " whitespace) with true. cbv iota.
  rewrite H. now apply hand_back_token.
Qed.

Lemma quote_char_cases q :
  Py.char_in q quotes = true ->
  Py.char_in q whitespace = false /\ Py.char_in q escape = false
  /\ is_wordchar q = false.
Proof.
  unfold quotes. rewrite !char_in_cons. intros Hq.
  destruct (Ascii.eqb_spec q "'") as [E|_]; [subst q; repeat split; reflexivity |].
  destruct (Ascii.eqb_spec q "034") as [E|_]; [subst q; repeat split; reflexivity |].
  discriminate.
Qed.

(** A plain word, a blank, and a quoted text: two tokens, the second one
    without its quotes. *)
Lemma split_flag_quoted (q : ascii) (flag value : string) :
  Py.char_in q quotes = true ->
  Py.nonempty flag = true ->
  Py.all_chars plain flag = true ->
  Py.char_in q value = false ->
  (Py.char_in q escapedquotes = true -> Py.char_in "\" value = false) ->
  split (flag ++ " " ++ String q (value ++ String q "")) = inr [flag; value].
Proof.
  intros Hq Hne Hflag Hv He. unfold split.
  destruct flag as [|c flag]; [discriminate |]. simpl in Hflag.
  apply andb_prop in Hflag as [Hc Hflag].
  rewrite append_cons, lex_open_word by exact Hc.
  rewrite lex_word_plain by exact Hflag.
  rewrite !append_cons, !append_nil_l.
  rewrite lex_word_blank by reflexivity.
  destruct (quote_char_cases q Hq) as (Hqw & Hqe & Hqn).
  cbn [lex]. rewrite Hqw, Hqe, Hqn, Hq. cbn [commenters punctuation_chars Py.char_in].
  rewrite lex_quoted_body by assumption.
  reflexivity.
Qed.

End ShlexFacts.

(** ** The argument list *)

Lemma split_empty : Shlex.split "" = inr [].
Proof. reflexivity. Qed.

(** C5.  The argument list is the binary, [-i] and the input path, then
    the tokens [shlex.split] makes of the instruction, then the output
    path.  The instruction [-vf] with a double-quoted [scale=1280:720]
    gives the two tokens [-vf] and [scale=1280:720]; more generally a
    plain word followed by a quoted text gives the word and the text
    without its quotes, blanks inside it included. *)
Theorem cmd_parts_from_tokens
    (ffmpeg_path temp_input_path temp_output_path instruction : string)
    (tokens : list string) (w : World) :
  Shlex.split instruction = inr tokens ->
  build_cmd_parts ffmpeg_path temp_input_path (JStr instruction) temp_output_path w
  = (Value ([ffmpeg_path; "-i"; temp_input_path] ++ tokens ++ [temp_output_path])%list, w)
  /\ Shlex.split Scenario.scale_instruction = inr ["-vf"; "scale=1280:720"]
  /\ (forall (q : ascii) (flag value : string),
        Py.char_in q Shlex.quotes = true ->
        Py.nonempty flag = true ->
        Py.all_chars Shlex.plain flag = true ->
        Py.char_in q value = false ->
        (Py.char_in q Shlex.escapedquotes = true -> Py.char_in "\" value = false) ->
        Shlex.split (flag ++ " " ++ String q (value ++ String q "")) = inr [flag; value]).
Proof.
  intros Hsplit. split; [| split].
  - unfold build_cmd_parts, shlex_split, lift, bind, ret.
    destruct instruction as [|c rest].
    + rewrite split_empty in Hsplit. injection Hsplit as <-. reflexivity.
    + cbn [truthy Py.nonempty]. rewrite Hsplit. cbn [app]. reflexivity.
  - vm_compute. reflexivity.
  - intros q flag value. apply ShlexFacts.split_flag_quoted.
Qed.

Lemma cmd_parts_from_tokens_witness :
  build_cmd_parts
    "/usr/bin/ffmpeg" "/tmp/tmpk3v9q/input.mp4" (JStr Scenario.scale_instruction)
    "/tmp/tmpk3v9q/output.mp4" Scenario.empty_storage
  = (Value ["/usr/bin/ffmpeg"; "-i"; "/tmp/tmpk3v9q/input.mp4"; "-vf"; "scale=1280:720";
            "/tmp/tmpk3v9q/output.mp4"],
     Scenario.empty_storage).
Proof.
  apply (cmd_parts_from_tokens
           "/usr/bin/ffmpeg" "/tmp/tmpk3v9q/input.mp4" "/tmp/tmpk3v9q/output.mp4"
           Scenario.scale_instruction ["-vf"; "scale=1280:720"] Scenario.empty_storage).
  vm_compute. reflexivity.
Defined.

(** ** Reading the request *)

Lemma field_of_dict (d : gmap string json) (p : gmap string string) (key : string) :
  d <> ∅ ->
  field (mkRequest (Some (JDict d)) p) key = inr (default JNull (d !! key)).
Proof.
  intros Hd. unfold field. simpl.
  rewrite bool_decide_eq_false_2 by exact Hd. reflexivity.
Qed.

Lemma field_of_falsy (req : HttpRequest) (key : string) :
  truthy (default JNull (get_json req)) = false ->
  field req key = inr (match params req !! key with Some s => JStr s | None => JNull end).
Proof. intros H. unfold field. now rewrite H. Qed.

Lemma field_ignores_params_when_truthy (b : json) (p1 p2 : gmap string string) (key : string) :
  truthy b = true ->
  field (mkRequest (Some b) p1) key = field (mkRequest (Some b) p2) key.
Proof. intros H. unfold field. simpl. now rewrite H. Qed.

(** The fields are read or not read all together: whether [field]
    raises depends on the body alone. *)
Lemma field_raises_alike (req : HttpRequest) (k1 k2 : string) (v : json) :
  field req k1 = inr v -> exists v', field req k2 = inr v'.
Proof.
  unfold field. destruct (truthy (default JNull (get_json req))); [| eauto].
  destruct (default JNull (get_json req)); try discriminate. eauto.
Qed.

(** C9, as it stands, fails: the body below is present, is valid JSON
    and is not the empty object, yet the field is read from the query
    parameters (with the parameters taken away the field is absent). *)
Lemma empty_array_body_reads_params :
  get_json Scenario.empty_array_request = Some (JList [])
  /\ field Scenario.empty_array_request "inputBlobUrl" = inr (JStr Scenario.source_url)
  /\ field (mkRequest (get_json Scenario.empty_array_request) ∅) "inputBlobUrl" = inr JNull.
Proof. vm_compute. repeat split; reflexivity. Qed.

(** C9, amended.  The query parameters are read exactly when the body is
    absent, is not valid JSON, or parses to a value that Python takes for
    false (null, false, zero, the empty string, the empty array, the
    empty object).  When the body parses to a non-empty object, a field
    is what the object holds under its name, absent if it holds nothing,
    whatever the query parameters are. *)
Theorem query_parameters_fallback (req : HttpRequest) (key : string) :
  (truthy (default JNull (get_json req)) = false ->
   field req key
   = inr (match params req !! key with Some s => JStr s | None => JNull end))
  /\ (truthy (default JNull (get_json req)) = true ->
      forall p, field (mkRequest (get_json req) p) key = field req key)
  /\ (forall d, get_json req = Some (JDict d) -> d <> ∅ ->
      field req key = inr (default JNull (d !! key))).
Proof.
  split; [| split].
  - apply field_of_falsy.
  - intros H p. unfold field. simpl. now rewrite H.
  - intros d Hd Hne. destruct req as [b p]. cbn [get_json] in Hd. subst b.
    now apply field_of_dict.
Qed.

Lemma query_parameters_fallback_witness :
  field Scenario.empty_array_request "ffmpegCommand" = inr (JStr "-c copy")
  /\ (forall p, field (mkRequest (get_json Scenario.transcode_request) p) "ffmpegCommand"
                = field Scenario.transcode_request "ffmpegCommand").
Proof.
  split.
  - apply (proj1 (query_parameters_fallback Scenario.empty_array_request "ffmpegCommand")).
    vm_compute. reflexivity.
  - apply (proj1 (proj2 (query_parameters_fallback Scenario.transcode_request "ffmpegCommand"))).
    vm_compute. reflexivity.
Defined.

(** ** Runs of [main] *)

Lemma drop_trace_app (l k : list event) : drop (length l) (l ++ k)%list = k.
Proof. apply drop_app_length. Qed.

Lemma drop_trace_nil (l : list event) : drop (length l) l = [].
Proof. apply drop_all. Qed.

(** Unfold one run down to the calls on the collaborators and on the
    text functions, which stay folded. *)
Ltac unfold_run :=
  cbv beta iota zeta delta
    [events call main download_stage ffmpeg_stage upload_stage build_cmd_parts
     output_blob_url_of tempfile_mkdtemp blob_client download_blob upload_blob run
     rmtree read_file write_file urlparse shlex_split try_except try_finally
     when check lift emit bind ret return_ raise status_of is_upload
     trace blobs dirs files status_code body fst snd].

(** Follow every branch of the run, innermost test first. *)
Ltac split_run :=
  repeat (match goal with
          | |- context [match ?x with _ => _ end] =>
              lazymatch x with
              | context [match _ with _ => _ end] => fail
              | _ => destruct x eqn:?
              end
          end;
          cbv beta iota zeta delta
            [status_of is_upload trace blobs dirs files status_code body fst snd]).

(** Bring the events of a branch to a plain list. *)
Ltac list_events :=
  rewrite <- ?app_assoc, ?drop_trace_app, ?drop_trace_nil; cbn [In app forallb negb andb].

(** Use a membership in the events of a branch. *)
Ltac use_events :=
  repeat match goal with
         | H : _ \/ _ |- _ => destruct H
         | H : False |- _ => destruct H
         | H : @eq event _ _ |- _ => first [discriminate H | injection H; clear H; intros; subst]
         | H : @eq (_ + _) _ _ |- _ => first [discriminate H | injection H; clear H; intros; subst]
         | H : @eq (_ * _) _ _ |- _ => injection H; clear H; intros; subst
         end.

(** C6.  When the transcoder was run and exited with a code other than
    zero, [main] answers 500 with the text [FFmpeg error: ] followed by
    the standard error of the process, the storage is as it was and no
    upload was attempted. *)
Theorem ffmpeg_failure_is_500
    (env : Env) (req : HttpRequest) (w : World)
    (argv : list string) (returncode : Z) (stderr : string) :
  In (EvRun argv (inr (returncode, stderr))) (events env req w) ->
  returncode <> 0%Z ->
  (call env req w).1 = Response (mkResponse ("FFmpeg error: " ++ stderr) 500)
  /\ blobs (call env req w).2 = blobs w
  /\ forallb (fun ev => negb (is_upload ev)) (events env req w) = true.
Proof.
  destruct w as [d0 f0 b0 t0].
  unfold_run. split_run.
  all: list_events; intros Hin Hrc; use_events.
  all: try (repeat split; reflexivity).
  all: exfalso; apply Hrc;
    match goal with
    | H : negb (_ =? 0)%Z = false |- _ =>
        apply negb_false_iff in H; now apply Z.eqb_eq in H
    end.
Qed.

Lemma ffmpeg_failure_is_500_witness :
  (call (Scenario.platform Scenario.failing_ffmpeg) Scenario.transcode_request
        Scenario.storage).1
  = Response (mkResponse ("FFmpeg error: " ++ "Unrecognized option") 500)
  /\ blobs (call (Scenario.platform Scenario.failing_ffmpeg) Scenario.transcode_request
                 Scenario.storage).2
     = blobs Scenario.storage
  /\ forallb (fun ev => negb (is_upload ev))
       (events (Scenario.platform Scenario.failing_ffmpeg) Scenario.transcode_request
               Scenario.storage) = true.
Proof.
  refine (ffmpeg_failure_is_500
            (Scenario.platform Scenario.failing_ffmpeg) Scenario.transcode_request
            Scenario.storage
            ["/usr/bin/ffmpeg"; "-i"; "/tmp/tmpk3v9q/input.mp4"; "-c"; "copy";
             "/tmp/tmpk3v9q/output.mp4"]
            1%Z "Unrecognized option" _ _).
  - vm_compute. do 3 right. left. reflexivity.
  - lia.
Defined.

(** What the storage answers for a blob it does not hold. *)
Lemma download_result_missing (env : Env) (w : World) (url : string) :
  download_fault env url = None ->
  blobs w !! url = None ->
  download_result env w url = inl (ResourceNotFoundError "The specified blob does not exist.").
Proof. intros Hf Hb. unfold download_result. now rewrite Hf, Hb. Qed.

(** C7.  When the download was attempted and the storage answered that
    the blob does not exist, [main] answers 404, the storage is as it was
    and no upload was attempted. *)
Theorem missing_source_is_404
    (env : Env) (req : HttpRequest) (w : World) (url msg : string) :
  In (EvDownload url (inl (ResourceNotFoundError msg))) (events env req w) ->
  status_of (call env req w).1 = Some 404%Z
  /\ blobs (call env req w).2 = blobs w
  /\ forallb (fun ev => negb (is_upload ev)) (events env req w) = true.
Proof.
  destruct w as [d0 f0 b0 t0].
  unfold_run. split_run.
  all: list_events; intros Hin; use_events.
  all: try (repeat split; reflexivity).
  all: match goal with
       | H : download_result _ _ _ = _ |- _ => rewrite H in *; discriminate
       end.
Qed.

Lemma missing_source_is_404_witness :
  status_of (call (Scenario.platform Scenario.stamping_ffmpeg) Scenario.transcode_request
                  Scenario.empty_storage).1 = Some 404%Z
  /\ blobs (call (Scenario.platform Scenario.stamping_ffmpeg) Scenario.transcode_request
                 Scenario.empty_storage).2
     = blobs Scenario.empty_storage
  /\ forallb (fun ev => negb (is_upload ev))
       (events (Scenario.platform Scenario.stamping_ffmpeg) Scenario.transcode_request
               Scenario.empty_storage) = true.
Proof.
  refine (missing_source_is_404
            (Scenario.platform Scenario.stamping_ffmpeg) Scenario.transcode_request
            Scenario.empty_storage Scenario.source_url
            "The specified blob does not exist." _).
  vm_compute. do 2 right. left. reflexivity.
Defined.

(** The trace only grows, by the events of the run. *)
Lemma run_trace (env : Env) (req : HttpRequest) (w : World) :
  trace (call env req w).2 = (trace w ++ events env req w)%list.
Proof.
  destruct w as [d0 f0 b0 t0].
  unfold_run. split_run.
  all: rewrite <- ?app_assoc, ?drop_trace_app, ?drop_trace_nil, ?app_nil_r; reflexivity.
Qed.

(** A request that lacks a field is turned down before anything is
    created. *)
Lemma validation_failure (env : Env) (req : HttpRequest) (w : World) (a b c : json) :
  field req "inputBlobUrl" = inr a ->
  field req "outputContainerName" = inr b ->
  field req "ffmpegCommand" = inr c ->
  truthy a && truthy b && truthy c = false ->
  call env req w
  = (Response (mkResponse
       "Please pass inputBlobUrl, outputContainerName, and ffmpegCommand in the request body"
       400), w).
Proof.
  intros Ha Hb Hc Hv. unfold_run. rewrite Ha, Hb, Hc. cbv beta iota.
  destruct (truthy a), (truthy b), (truthy c); try discriminate; reflexivity.
Qed.

(** A source URL without a blob path is turned down after the directory
    was created, and the directory stays. *)
Lemma invalid_locator_run
    (env : Env) (req : HttpRequest) (w : World) (url : string) (b c : json) (d : string) :
  field req "inputBlobUrl" = inr (JStr url) ->
  field req "outputContainerName" = inr b ->
  field req "ffmpegCommand" = inr c ->
  truthy (JStr url) && truthy b && truthy c = true ->
  mkdtemp env = inr d ->
  parse_locator (check_bracketed_host env) url = inr None ->
  call env req w
  = (Response (mkResponse
       "Invalid blob URL format. URL must include container name and blob path." 400),
     mkWorld ({[d]} ∪ dirs w) (files w) (blobs w) (trace w ++ [EvMkdtemp d])).
Proof.
  intros Ha Hb Hc Hv Hd Hp. unfold parse_locator in Hp.
  destruct (UrlParse.urlparse (check_bracketed_host env) url) as [e|pr] eqn:Hu;
    [discriminate |].
  injection Hp as Hl.
  destruct w as [d0 f0 b0 t0].
  unfold_run. rewrite Ha, Hb, Hc. cbv beta iota.
  destruct (truthy (JStr url)), (truthy b), (truthy c); try discriminate.
  cbv beta iota delta [negb orb]. rewrite Hd. cbv beta iota. rewrite Hu. cbv beta iota.
  rewrite Hl. reflexivity.
Qed.

(** C1 fails.  The removal of lines 168 to 174 belongs to the [try] of
    the upload only: a run that created its directory and did not get
    the exit code zero from the transcoder (it returned before, or the
    transcoder failed) returns with the directory still there, and no
    removal was attempted. *)
Theorem workspace_left_behind
    (env : Env) (req : HttpRequest) (w : World) (d : string) :
  In (EvMkdtemp d) (events env req w) ->
  (forall argv stderr, ~ In (EvRun argv (inr (0%Z, stderr))) (events env req w)) ->
  d ∈ dirs (call env req w).2
  /\ ~ In (EvRmtree d) (events env req w).
Proof.
  destruct w as [d0 f0 b0 t0].
  unfold_run. split_run.
  all: list_events; intros Hin Hrun.
  all: try (exfalso;
            match goal with
            | H : negb (?z =? 0)%Z = false |- _ =>
                apply negb_false_iff in H; apply Z.eqb_eq in H; subst z;
                eapply Hrun; do 3 right; left; reflexivity
            end).
  all: use_events.
  all: split; [set_solver | intros Hrm; use_events].
Qed.

Lemma workspace_left_behind_witness :
  status_of (call (Scenario.platform Scenario.stamping_ffmpeg)
                  Scenario.container_only_request Scenario.storage).1 = Some 400%Z
  /\ "/tmp/tmpk3v9q" ∈ dirs (call (Scenario.platform Scenario.stamping_ffmpeg)
                               Scenario.container_only_request Scenario.storage).2
  /\ ~ In (EvRmtree "/tmp/tmpk3v9q")
         (events (Scenario.platform Scenario.stamping_ffmpeg)
                 Scenario.container_only_request Scenario.storage).
Proof.
  split; [vm_compute; reflexivity |].
  refine (workspace_left_behind (Scenario.platform Scenario.stamping_ffmpeg)
            Scenario.container_only_request Scenario.storage "/tmp/tmpk3v9q" _ _).
  - vm_compute. left. reflexivity.
  - intros argv stderr. vm_compute. intros [H|[]]. discriminate H.
Defined.

(** C3 fails on a request whose body is valid JSON, counts as true for
    Python and is no object (an array with an element, a text, a number
    other than zero, [true]): none of the three fields is there, and
    [main] does not answer 400; line 30 calls [get] on the value and the
    [AttributeError] escapes, with nothing done. *)
Theorem non_object_body_escapes_validation
    (env : Env) (req : HttpRequest) (w : World) (b : json) :
  get_json req = Some b ->
  truthy b = true ->
  (forall d, b <> JDict d) ->
  call env req w = (Crash (no_attribute b "get"), w)
  /\ status_of (call env req w).1 = None.
Proof.
  intros Hb Ht Hd.
  assert (Hf : field req "inputBlobUrl" = inl (no_attribute b "get")).
  { unfold field. rewrite Hb. simpl. rewrite Ht.
    destruct b; try reflexivity. now destruct (Hd d). }
  assert (Hc : call env req w = (Crash (no_attribute b "get"), w)).
  { unfold_run. rewrite Hf. reflexivity. }
  split; [exact Hc | now rewrite Hc].
Qed.

Lemma non_object_body_escapes_validation_witness :
  call (Scenario.platform Scenario.stamping_ffmpeg) Scenario.array_request Scenario.storage
  = (Crash (AttributeError "'list' object has no attribute 'get'"), Scenario.storage)
  /\ status_of (call (Scenario.platform Scenario.stamping_ffmpeg) Scenario.array_request
                     Scenario.storage).1 = None.
Proof.
  refine (non_object_body_escapes_validation (Scenario.platform Scenario.stamping_ffmpeg)
            Scenario.array_request Scenario.storage (JList [JInt 1]) _ _ _).
  - reflexivity.
  - reflexivity.
  - intros d. discriminate.
Defined.

(** X2.  Short of that, a request that lacks a field is answered 400
    with nothing done: when the body is absent, counts as false or is an
    object, [field] raises nothing. *)
Lemma missing_field_is_400 (env : Env) (req : HttpRequest) (w : World) :
  (truthy (default JNull (get_json req)) = false
   \/ exists d, get_json req = Some (JDict d)) ->
  (exists key,
      In key ["inputBlobUrl"; "outputContainerName"; "ffmpegCommand"]
      /\ exists v, field req key = inr v /\ truthy v = false) ->
  status_of (call env req w).1 = Some 400%Z /\ (call env req w).2 = w.
Proof.
  intros Hbody (key & Hkey & v & Hv & Hfalse).
  assert (Hall : forall k, exists x, field req k = inr x).
  { intros k. unfold field. destruct Hbody as [Hb | [d Hd]].
    - rewrite Hb. eauto.
    - rewrite Hd. simpl. destruct (negb (bool_decide (d = ∅))); eauto. }
  destruct (Hall "inputBlobUrl") as [a Ha].
  destruct (Hall "outputContainerName") as [b Hb].
  destruct (Hall "ffmpegCommand") as [c Hc].
  rewrite (validation_failure env req w a b c Ha Hb Hc); [split; reflexivity |].
  cbn [In] in Hkey.
  destruct Hkey as [<-|[<-|[<-|[]]]].
  - rewrite Ha in Hv. injection Hv as ->. now rewrite Hfalse.
  - rewrite Hb in Hv. injection Hv as ->. rewrite Hfalse. now destruct (truthy a).
  - rewrite Hc in Hv. injection Hv as ->. rewrite Hfalse. apply andb_false_r.
Qed.

(** ** Path segments *)

Lemma split_cons (c d : ascii) (s : string) :
  Py.split c (String d s)
  = if Ascii.eqb d c then EmptyString :: Py.split c s
    else match Py.split c s with
         | [] => [String d EmptyString]
         | w :: ws => String d w :: ws
         end.
Proof. reflexivity. Qed.

Lemma split_not_nil (c : ascii) (s : string) : Py.split c s <> [].
Proof.
  destruct s as [|d s]; [discriminate |].
  rewrite split_cons. destruct (Ascii.eqb d c); [discriminate |].
  destruct (Py.split c s); discriminate.
Qed.

Lemma split_single_empty (c : ascii) (s : string) :
  Py.split c s = [EmptyString] -> s = EmptyString.
Proof.
  destruct s as [|d s]; [reflexivity |].
  rewrite split_cons. destruct (Ascii.eqb d c) eqn:E.
  - intros H. injection H as H. now apply split_not_nil in H.
  - destruct (Py.split c s); discriminate.
Qed.

Lemma char_in_single (c d : ascii) :
  Py.char_in c (String d EmptyString) = Ascii.eqb c d.
Proof. rewrite char_in_cons. now destruct (Ascii.eqb c d). Qed.

(** Stripping the separator on the left drops the empty segments in
    front. *)
Lemma split_lstrip (c : ascii) (s : string) :
  Py.split c (Py.lstrip (String c EmptyString) s)
  = match drop_empty_front (Py.split c s) with
    | [] => [EmptyString]
    | l => l
    end.
Proof.
  induction s as [|d s IH]; [reflexivity |].
  cbn [Py.lstrip]. rewrite char_in_single, split_cons.
  destruct (Ascii.eqb d c) eqn:E.
  - cbn [drop_empty_front]. exact IH.
  - rewrite split_cons, E.
    destruct (Py.split c s); reflexivity.
Qed.

Lemma drop_empty_back_cons (x : string) (l : list string) :
  drop_empty_back (x :: l)
  = match drop_empty_back l with
    | [] => if Py.nonempty x then [x] else []
    | kept => x :: kept
    end.
Proof. reflexivity. Qed.

Lemma drop_empty_back_not_single_empty (l : list string) :
  drop_empty_back l <> [EmptyString].
Proof.
  induction l as [|x l IH]; [discriminate |].
  rewrite drop_empty_back_cons.
  destruct (drop_empty_back l) as [|y k] eqn:E.
  - destruct x; cbn [Py.nonempty]; discriminate.
  - intros H. injection H as _ H. discriminate.
Qed.

Lemma rstrip_cons (chars : string) (d : ascii) (s : string) :
  Py.rstrip chars (String d s)
  = match Py.rstrip chars s with
    | EmptyString => if Py.char_in d chars then EmptyString else String d EmptyString
    | r => String d r
    end.
Proof. reflexivity. Qed.

(** Stripping the separator on the right drops the empty segments at the
    end. *)
Lemma split_rstrip (c : ascii) (s : string) :
  Py.split c (Py.rstrip (String c EmptyString) s)
  = match drop_empty_back (Py.split c s) with
    | [] => [EmptyString]
    | l => l
    end.
Proof.
  induction s as [|d s IH]; [reflexivity |].
  rewrite rstrip_cons, char_in_single, split_cons.
  destruct (Ascii.eqb d c) eqn:E.
  - rewrite drop_empty_back_cons. cbn [Py.nonempty].
    destruct (drop_empty_back (Py.split c s)) as [|y k] eqn:Eb.
    + apply split_single_empty in IH. rewrite IH. reflexivity.
    + destruct (Py.rstrip (String c EmptyString) s) as [|e r] eqn:Er.
      * exfalso. cbn in IH. injection IH as <- <-.
        now apply (drop_empty_back_not_single_empty (Py.split c s)).
      * rewrite split_cons, E, IH. reflexivity.
  - destruct (Py.split c s) as [|w ws] eqn:Es; [now apply split_not_nil in Es |].
    rewrite drop_empty_back_cons in IH. rewrite drop_empty_back_cons.
    cbn [Py.nonempty].
    destruct (drop_empty_back ws) as [|y k] eqn:Eb.
    + destruct w as [|e w].
      * cbn [Py.nonempty] in IH. apply split_single_empty in IH. rewrite IH.
        rewrite split_cons, E. reflexivity.
      * cbn [Py.nonempty] in IH.
        destruct (Py.rstrip (String c EmptyString) s) as [|e' r] eqn:Er;
          [discriminate |].
        rewrite split_cons, E, IH. reflexivity.
    + destruct (Py.rstrip (String c EmptyString) s) as [|e' r] eqn:Er;
        [discriminate |].
      rewrite split_cons, E, IH. reflexivity.
Qed.

(** What line 60 computes is the list of segments of the path without
    the empty ones at both ends, or one empty segment when nothing is
    left. *)
Lemma path_parts_segments (p : string) :
  path_parts_of p = match segments p with [] => [EmptyString] | l => l end.
Proof.
  unfold path_parts_of, segments, Py.strip.
  change "/"%string with (String "/" EmptyString).
  rewrite split_rstrip, split_lstrip.
  destruct (drop_empty_front (Py.split "/" p)); reflexivity.
Qed.

Lemma locate_short (pr : UrlParse.ParseResult) :
  (length (segments (UrlParse.path pr)) < 2)%nat -> locate pr = None.
Proof.
  intros H. unfold locate. rewrite path_parts_segments.
  destruct (segments (UrlParse.path pr)) as [|a [|b l]]; try reflexivity.
  cbn in H. lia.
Qed.

Lemma locate_long (pr : UrlParse.ParseResult) :
  (2 <= length (segments (UrlParse.path pr)))%nat ->
  locate pr
  = Some (mkLocator (account_of (UrlParse.netloc pr))
            (hd EmptyString (segments (UrlParse.path pr)))
            (Py.join "/" (tl (segments (UrlParse.path pr))))).
Proof.
  intros H. unfold locate. rewrite path_parts_segments.
  destruct (segments (UrlParse.path pr)) as [|a [|b l]]; cbn in H; try lia.
  reflexivity.
Qed.

(** C4.  When the path of the source URL has fewer than two segments
    once the empty leading and trailing ones are discarded, the locator
    parser finds no locator, and [main] answers 400. *)
Theorem short_path_is_400
    (env : Env) (req : HttpRequest) (w : World)
    (url d : string) (pr : UrlParse.ParseResult) :
  field req "inputBlobUrl" = inr (JStr url) ->
  mkdtemp env = inr d ->
  UrlParse.urlparse (check_bracketed_host env) url = inr pr ->
  (length (segments (UrlParse.path pr)) < 2)%nat ->
  parse_locator (check_bracketed_host env) url = inr None
  /\ status_of (call env req w).1 = Some 400%Z.
Proof.
  intros Ha Hd Hu Hs.
  assert (Hp : parse_locator (check_bracketed_host env) url = inr None).
  { unfold parse_locator. rewrite Hu. now rewrite locate_short. }
  split; [exact Hp |].
  destruct (field_raises_alike req _ "outputContainerName" _ Ha) as [b Hb].
  destruct (field_raises_alike req _ "ffmpegCommand" _ Ha) as [c Hc].
  destruct (truthy (JStr url) && truthy b && truthy c) eqn:Hv.
  - now rewrite (invalid_locator_run env req w url b c d).
  - now rewrite (validation_failure env req w (JStr url) b c).
Qed.

Lemma short_path_is_400_witness :
  parse_locator (check_bracketed_host (Scenario.platform Scenario.stamping_ffmpeg))
    Scenario.container_url = inr None
  /\ status_of (call (Scenario.platform Scenario.stamping_ffmpeg)
                     Scenario.container_only_request Scenario.storage).1 = Some 400%Z.
Proof.
  refine (short_path_is_400 (Scenario.platform Scenario.stamping_ffmpeg)
            Scenario.container_only_request Scenario.storage
            Scenario.container_url "/tmp/tmpk3v9q"
            (UrlParse.mkParseResult "https" "acc.blob.core.windows.net" "/videos" "" "" "")
            _ _ _ _).
  - vm_compute. reflexivity.
  - reflexivity.
  - vm_compute. reflexivity.
  - vm_compute. lia.
Defined.

(** ** URLs written as scheme, host and path *)

Module UrlFacts.
Import UrlParse.

Ltac by_cases_on_char c :=
  destruct c as [[] [] [] [] [] [] [] []]; vm_compute; intros; try discriminate; auto.

Lemma alpha_not_blank (c : ascii) :
  is_alpha c = true -> Py.char_in c c0_control_or_space = false.
Proof. by_cases_on_char c. Qed.

Lemma scheme_char_facts (c : ascii) :
  Py.char_in c scheme_chars = true ->
  Ascii.eqb c ":" = false
  /\ forallb (fun b => negb (Ascii.eqb b c)) unsafe_url_bytes_to_remove = true.
Proof. by_cases_on_char c. Qed.

Lemma host_char_facts (c : ascii) :
  host_char c = true ->
  Py.char_in c "/?#" = false
  /\ Ascii.eqb "[" c = false /\ Ascii.eqb "]" c = false
  /\ forallb (fun b => negb (Ascii.eqb b c)) unsafe_url_bytes_to_remove = true.
Proof. by_cases_on_char c. Qed.

Lemma lower_char_dot (c : ascii) :
  Ascii.eqb (Py.lower_char c) "." = Ascii.eqb c ".".
Proof. by_cases_on_char c. Qed.

Lemma remove_char_append (x : ascii) (a b : string) :
  Py.remove_char x (a ++ b) = Py.remove_char x a ++ Py.remove_char x b.
Proof.
  induction a as [|d a IH]; [reflexivity |].
  rewrite append_cons. cbn [Py.remove_char].
  destruct (Ascii.eqb x d); [exact IH | now rewrite append_cons, IH].
Qed.

Lemma remove_unsafe_append (a b : string) :
  remove_unsafe (a ++ b) = remove_unsafe a ++ remove_unsafe b.
Proof.
  unfold remove_unsafe, unsafe_url_bytes_to_remove. cbn [fold_left].
  now rewrite !remove_char_append.
Qed.

Lemma remove_unsafe_clean (p : ascii -> bool) (s : string) :
  (forall c, p c = true ->
     forallb (fun b => negb (Ascii.eqb b c)) unsafe_url_bytes_to_remove = true) ->
  Py.all_chars p s = true ->
  remove_unsafe s = s.
Proof.
  intros Hp. induction s as [|d s IH]; [reflexivity |].
  cbn [Py.all_chars]. intros H. apply andb_prop in H as [Hd Hs].
  specialize (IH Hs). specialize (Hp d Hd).
  unfold remove_unsafe, unsafe_url_bytes_to_remove in *.
  cbn [fold_left forallb] in *.
  destruct (Ascii.eqb "009" d) eqn:E1; [discriminate |].
  destruct (Ascii.eqb "013" d) eqn:E2; [discriminate |].
  destruct (Ascii.eqb "010" d) eqn:E3; [discriminate |].
  cbn [Py.remove_char]. rewrite E1. cbn [Py.remove_char]. rewrite E2.
  cbn [Py.remove_char]. rewrite E3. now rewrite IH.
Qed.

Lemma partition_scheme (sch rest : string) :
  Py.all_chars (fun c => Py.char_in c scheme_chars) sch = true ->
  Py.partition ":" (sch ++ String ":" rest) = (sch, true, rest).
Proof.
  induction sch as [|d sch IH]; intros H.
  - reflexivity.
  - cbn [Py.all_chars] in H. apply andb_prop in H as [Hd Hs].
    rewrite append_cons. cbn [Py.partition].
    destruct (scheme_char_facts d Hd) as [-> _]. now rewrite IH.
Qed.

Lemma break_at_host (host rest : string) :
  host_ok host = true ->
  break_at "/?#" (host ++ String "/" rest) = (host, String "/" rest).
Proof.
  unfold host_ok. induction host as [|d host IH]; intros H.
  - reflexivity.
  - cbn [Py.all_chars] in H. apply andb_prop in H as [Hd Hs].
    rewrite append_cons. cbn [break_at].
    destruct (host_char_facts d Hd) as [-> _]. now rewrite IH.
Qed.

Lemma host_no_bracket (host : string) :
  host_ok host = true ->
  Py.char_in "[" host = false /\ Py.char_in "]" host = false.
Proof.
  unfold host_ok. induction host as [|d host IH]; intros H; [split; reflexivity |].
  cbn [Py.all_chars] in H. apply andb_prop in H as [Hd Hs].
  destruct (host_char_facts d Hd) as (_ & E1 & E2 & _).
  rewrite !char_in_cons, E1, E2. now apply IH.
Qed.

Lemma startswith_slashes (s : string) :
  Py.startswith "//" (String "/" (String "/" s)) = true.
Proof.
  unfold Py.startswith. cbn [String.prefix].
  destruct (ascii_dec "/" "/") as [_|n]; [now destruct s | now destruct n].
Qed.

(** The scheme, the netloc and the rest of a URL written as scheme, host
    and path: the netloc is the host as it was written. *)
Lemma split_authority_url_of (sch host p : string) :
  scheme_ok sch = true ->
  host_ok host = true ->
  split_authority (url_of sch host p)
  = (Py.lower sch, true, host, String "/" (remove_unsafe p)).
Proof.
  intros Hs Hh. unfold split_authority, url_of.
  destruct sch as [|c0 sch]; [discriminate |].
  cbn [scheme_ok] in Hs. apply andb_prop in Hs as [Hc0 Hsch].
  rewrite append_cons. cbn [Py.lstrip]. rewrite (alpha_not_blank c0 Hc0).
  rewrite <- append_cons.
  rewrite !remove_unsafe_append.
  rewrite (remove_unsafe_clean _ (String c0 sch) (fun c H => proj2 (scheme_char_facts c H)) Hsch).
  rewrite (remove_unsafe_clean host_char host
             (fun c H => proj2 (proj2 (proj2 (host_char_facts c H)))) Hh).
  change (remove_unsafe "://") with "://"%string.
  change (remove_unsafe "/") with "/"%string.
  unfold split_scheme.
  change ("://" ++ host ++ "/" ++ remove_unsafe p)
    with (String ":" ("//" ++ host ++ "/" ++ remove_unsafe p)).
  rewrite partition_scheme by exact Hsch.
  rewrite Hc0, Hsch. cbn [andb].
  change ("//" ++ host ++ "/" ++ remove_unsafe p)
    with (String "/" (String "/" (host ++ String "/" (remove_unsafe p)))).
  rewrite startswith_slashes.
  unfold splitnetloc. now rewrite break_at_host.
Qed.

(** Everything but the netloc of the parse result is decided by the
    scheme and the path. *)
Lemma urlparse_url_of (chk : string -> option string) (sch p : string) :
  scheme_ok sch = true ->
  exists path prm qry frag,
    forall host,
      host_ok host = true ->
      urlparse chk (url_of sch host p)
      = inr (mkParseResult (Py.lower sch) host path prm qry frag).
Proof.
  intros Hs.
  destruct (split_query_fragment (String "/" (remove_unsafe p))) as [[u qry] frag] eqn:Eq.
  destruct (if existsb (String.eqb (Py.lower sch)) uses_params && Py.char_in ";" u
            then splitparams u else (u, EmptyString)) as [path prm] eqn:Ep.
  exists path, prm, qry, frag. intros host Hh.
  unfold urlparse, urlsplit. rewrite split_authority_url_of by assumption.
  unfold netloc_error. destruct (host_no_bracket host Hh) as [-> ->].
  cbn [andb orb negb]. rewrite Eq, Ep. reflexivity.
Qed.

Lemma account_of_lower (host : string) :
  account_of (Py.lower host) = Py.lower (account_of host).
Proof.
  unfold account_of.
  assert (H : forall s, Py.split "." (Py.lower s) = List.map Py.lower (Py.split "." s)).
  { induction s as [|d s IH]; [reflexivity |].
    cbn [Py.lower]. rewrite !split_cons, lower_char_dot.
    destruct (Ascii.eqb d "."); [now rewrite IH |].
    rewrite IH. destruct (Py.split "." s); reflexivity. }
  rewrite H. now destruct (Py.split "." host).
Qed.

End UrlFacts.

(** C2, as it stands, fails: the two URLs differ in the case of the host
    only, and the accounts parsed from them are not the same. *)
Lemma uppercase_host_gives_other_account :
  parse_locator (fun _ => None) (url_of "https" "MYACC.blob.core.windows.net" "videos/in.mp4")
  = inr (Some (mkLocator "MYACC" "videos" "in.mp4"))
  /\ parse_locator (fun _ => None) (url_of "https" "myacc.blob.core.windows.net" "videos/in.mp4")
     = inr (Some (mkLocator "myacc" "videos" "in.mp4")).
Proof. split; vm_compute; reflexivity. Qed.

(** C2, amended.  Two URLs with the same scheme and path whose hosts
    differ in letter case only are parsed alike: either both lack a blob
    path, or both give the same container and the same object path, and
    each gives as account the first label of its host in the case it was
    written in, so the two accounts agree up to letter case. *)
Theorem locator_up_to_host_case
    (chk : string -> option string) (sch host1 host2 p : string) :
  scheme_ok sch = true ->
  host_ok host1 = true ->
  host_ok host2 = true ->
  Py.lower host1 = Py.lower host2 ->
  (parse_locator chk (url_of sch host1 p) = inr None
   /\ parse_locator chk (url_of sch host2 p) = inr None)
  \/ exists container object,
       parse_locator chk (url_of sch host1 p)
       = inr (Some (mkLocator (account_of host1) container object))
       /\ parse_locator chk (url_of sch host2 p)
          = inr (Some (mkLocator (account_of host2) container object))
       /\ Py.lower (account_of host1) = Py.lower (account_of host2).
Proof.
  intros Hs H1 H2 Hl.
  destruct (UrlFacts.urlparse_url_of chk sch p Hs) as (path & prm & qry & frag & Hu).
  unfold parse_locator. rewrite (Hu host1 H1), (Hu host2 H2).
  unfold locate. cbn [UrlParse.netloc UrlParse.path].
  destruct (match path_parts_of path with [] => true | _ :: _ => false end
            || (length (path_parts_of path) <? 2)%nat).
  - left. split; reflexivity.
  - right. eexists _, _. split; [reflexivity |]. split; [reflexivity |].
    now rewrite <- !UrlFacts.account_of_lower, Hl.
Qed.

Lemma locator_up_to_host_case_witness :
  (parse_locator (fun _ => None) (url_of "https" "MyAcc.Blob.core.windows.net" "videos/a/in.mp4")
   = inr None
   /\ parse_locator (fun _ => None) (url_of "https" "myacc.blob.CORE.windows.net" "videos/a/in.mp4")
      = inr None)
  \/ exists container object,
       parse_locator (fun _ => None)
         (url_of "https" "MyAcc.Blob.core.windows.net" "videos/a/in.mp4")
       = inr (Some (mkLocator (account_of "MyAcc.Blob.core.windows.net") container object))
       /\ parse_locator (fun _ => None)
            (url_of "https" "myacc.blob.CORE.windows.net" "videos/a/in.mp4")
          = inr (Some (mkLocator (account_of "myacc.blob.CORE.windows.net") container object))
       /\ Py.lower (account_of "MyAcc.Blob.core.windows.net")
          = Py.lower (account_of "myacc.blob.CORE.windows.net").
Proof.
  refine (locator_up_to_host_case (fun _ => None) "https"
            "MyAcc.Blob.core.windows.net" "myacc.blob.CORE.windows.net" "videos/a/in.mp4"
            _ _ _ _); vm_compute; reflexivity.
Defined.

(** ** What a run contacts and writes *)

(** The validator of bracketed hosts decides whether [urlparse] raises,
    not what it returns. *)
Lemma urlparse_result_unique (chk chk' : string -> option string) (url : string)
    (pr pr' : UrlParse.ParseResult) :
  UrlParse.urlparse chk url = inr pr ->
  UrlParse.urlparse chk' url = inr pr' ->
  pr = pr'.
Proof.
  unfold UrlParse.urlparse, UrlParse.urlsplit.
  destruct (UrlParse.split_authority url) as [[[sch has] nl] rest].
  destruct (UrlParse.netloc_error chk has nl); [discriminate |].
  destruct (UrlParse.netloc_error chk' has nl); [discriminate |].
  congruence.
Qed.

(** X3.  Every blob client is made for the rebuilt URL of the source or
    for the [output.mp4] of the destination container. *)
Lemma clients_of_run (env : Env) (req : HttpRequest) (w : World) (url : string) :
  In (EvBlobClient url) (events env req w) ->
  (exists src loc,
      field req "inputBlobUrl" = inr (JStr src)
      /\ parse_locator (check_bracketed_host env) src = inr (Some loc)
      /\ url = blob_url (accountName loc) (containerName loc) (objectPath loc))
  \/ (exists dest pr,
        field req "outputContainerName" = inr (JStr dest)
        /\ UrlParse.urlparse (check_bracketed_host env) dest = inr pr
        /\ url = output_blob_url_of pr).
Proof.
  destruct w as [d0 f0 b0 t0]. unfold parse_locator.
  unfold_run. split_run.
  all: list_events; intros Hin; use_events.
  all: first
    [ left; eexists _, _; split; [reflexivity |];
      match goal with H : UrlParse.urlparse _ _ = _ |- _ => rewrite H end;
      match goal with H : locate _ = _ |- _ => rewrite H end;
      split; reflexivity
    | right; eexists _, _; split; [reflexivity |]; split; [eassumption | reflexivity] ].
Qed.

(** Every upload goes to the [output.mp4] of the destination container,
    with [overwrite=True]. *)
Lemma uploads_of_run (env : Env) (req : HttpRequest) (w : World)
    (url : string) (overwrite : bool) (data : bytes) (r : option exn) :
  In (EvUpload url overwrite data r) (events env req w) ->
  overwrite = true
  /\ exists dest pr,
       field req "outputContainerName" = inr (JStr dest)
       /\ UrlParse.urlparse (check_bracketed_host env) dest = inr pr
       /\ url = output_blob_url_of pr.
Proof.
  destruct w as [d0 f0 b0 t0].
  unfold_run. split_run.
  all: list_events; intros Hin; use_events.
  all: split; [reflexivity |]; eexists _, _; split; [reflexivity |];
       split; [eassumption | reflexivity].
Qed.

(** A run that answers 200 made one upload, and the storage is the one
    before with that blob written. *)
Lemma successful_run (env : Env) (req : HttpRequest) (w : World) :
  status_of (call env req w).1 = Some 200%Z ->
  exists dest pr data,
    field req "outputContainerName" = inr (JStr dest)
    /\ UrlParse.urlparse (check_bracketed_host env) dest = inr pr
    /\ blobs (call env req w).2 = <[output_blob_url_of pr := data]> (blobs w)
    /\ forall url overwrite data' r,
         In (EvUpload url overwrite data' r) (events env req w) -> data' = data.
Proof.
  destruct w as [d0 f0 b0 t0].
  unfold_run. split_run.
  all: intros Hs; try discriminate Hs.
  all: eexists _, _, _; split; [reflexivity |]; split; [eassumption |];
       split; [reflexivity |].
  all: list_events; intros url overwrite data' r Hin; use_events; reflexivity.
Qed.

(** C8, as it stands, fails: the source of the request below is the
    [output.mp4] of the destination container.  Both runs answer 200; the
    first leaves the stamped source in the blob, the second transcodes
    that and leaves another content. *)
Lemma reprocessing_changes_destination :
  status_of (call (Scenario.platform Scenario.stamping_ffmpeg)
                  Scenario.reprocess_request Scenario.storage_with_output).1 = Some 200%Z
  /\ status_of (call (Scenario.platform Scenario.stamping_ffmpeg)
                     Scenario.reprocess_request
                     (call (Scenario.platform Scenario.stamping_ffmpeg)
                           Scenario.reprocess_request Scenario.storage_with_output).2).1
     = Some 200%Z
  /\ blobs (call (Scenario.platform Scenario.stamping_ffmpeg)
                 Scenario.reprocess_request Scenario.storage_with_output).2
       !! Scenario.output_url
     = Some [Byte.x01; Byte.x2a]
  /\ blobs (call (Scenario.platform Scenario.stamping_ffmpeg)
                 Scenario.reprocess_request
                 (call (Scenario.platform Scenario.stamping_ffmpeg)
                       Scenario.reprocess_request Scenario.storage_with_output).2).2
       !! Scenario.output_url
     = Some [Byte.x01; Byte.x2a; Byte.x2a].
Proof. repeat split; vm_compute; reflexivity. Qed.

(** C8, amended.  Every upload is made with [overwrite=True] to the blob
    [output.mp4] of the container that the destination URL names first
    in its path, whatever follows in that path.  Consequently, when a
    request that succeeded is run again, succeeds again and uploads the
    same bytes as the first time, the storage after the second run is the
    storage after the first. *)
Theorem upload_overwrites_output_mp4
    (env env' : Env) (req : HttpRequest) (w : World) :
  (forall url overwrite data r,
      In (EvUpload url overwrite data r) (events env req w) ->
      overwrite = true
      /\ exists dest pr,
           field req "outputContainerName" = inr (JStr dest)
           /\ UrlParse.urlparse (check_bracketed_host env) dest = inr pr
           /\ url = blob_url (account_of (UrlParse.netloc pr))
                      (hd EmptyString (path_parts_of (UrlParse.path pr)))
                      "output.mp4")
  /\ (forall data url url',
        status_of (call env req w).1 = Some 200%Z ->
        status_of (call env' req (call env req w).2).1 = Some 200%Z ->
        In (EvUpload url true data None) (events env req w) ->
        In (EvUpload url' true data None) (events env' req (call env req w).2) ->
        blobs (call env' req (call env req w).2).2 = blobs (call env req w).2).
Proof.
  split.
  - intros url overwrite data r Hin. exact (uploads_of_run env req w url overwrite data r Hin).
  - intros data url url' H1 H2 Hin1 Hin2.
    destruct (successful_run env req w H1) as (dest & pr & d1 & Hf & Hu & Hb & Hd).
    destruct (successful_run env' req _ H2) as (dest' & pr' & d2 & Hf' & Hu' & Hb' & Hd').
    rewrite Hf in Hf'. injection Hf' as <-.
    rewrite (urlparse_result_unique _ _ _ _ _ Hu' Hu) in Hb'.
    rewrite (Hd _ _ _ _ Hin1) in Hin2. rewrite (Hd' _ _ _ _ Hin2) in Hb.
    rewrite Hb', Hb. apply insert_insert_eq.
Qed.

Lemma upload_overwrites_output_mp4_witness :
  blobs (call (Scenario.platform Scenario.stamping_ffmpeg) Scenario.transcode_request
              (call (Scenario.platform Scenario.stamping_ffmpeg) Scenario.transcode_request
                    Scenario.storage).2).2
  = blobs (call (Scenario.platform Scenario.stamping_ffmpeg) Scenario.transcode_request
                Scenario.storage).2.
Proof.
  refine (proj2 (upload_overwrites_output_mp4
                   (Scenario.platform Scenario.stamping_ffmpeg)
                   (Scenario.platform Scenario.stamping_ffmpeg)
                   Scenario.transcode_request Scenario.storage)
                [Byte.x01; Byte.x02; Byte.x2a] Scenario.output_url Scenario.output_url
                _ _ _ _).
  - vm_compute. reflexivity.
  - vm_compute. reflexivity.
  - vm_compute. do 5 right. left. reflexivity.
  - vm_compute. do 5 right. left. reflexivity.
Defined.

(** The blob client of the source is made for the URL rebuilt from the
    locator, and the download goes to it. *)
Lemma source_client_of_run
    (env : Env) (req : HttpRequest) (w : World)
    (url : string) (b c : json) (d : string) (loc : StorageLocator) :
  field req "inputBlobUrl" = inr (JStr url) ->
  field req "outputContainerName" = inr b ->
  field req "ffmpegCommand" = inr c ->
  truthy (JStr url) && truthy b && truthy c = true ->
  mkdtemp env = inr d ->
  parse_locator (check_bracketed_host env) url = inr (Some loc) ->
  new_credential env = None ->
  In (EvBlobClient (blob_url (accountName loc) (containerName loc) (objectPath loc)))
     (events env req w)
  /\ (from_blob_url env (blob_url (accountName loc) (containerName loc) (objectPath loc))
      = None ->
      exists r,
        In (EvDownload (blob_url (accountName loc) (containerName loc) (objectPath loc)) r)
           (events env req w)).
Proof.
  intros Ha Hb Hc Hv Hd Hp Hcred. unfold parse_locator in Hp.
  destruct (UrlParse.urlparse (check_bracketed_host env) url) as [e|pr] eqn:Hu;
    [discriminate |].
  injection Hp as Hl.
  destruct w as [d0 f0 b0 t0].
  unfold_run. rewrite Ha, Hb, Hc. cbv beta iota.
  destruct (truthy (JStr url)), (truthy b), (truthy c); try discriminate.
  cbv beta iota delta [negb orb]. rewrite Hd. cbv beta iota. rewrite Hu. cbv beta iota.
  rewrite Hl. cbv beta iota. rewrite Hcred. cbv beta iota.
  split_run.
  all: list_events; split; [tauto |]; intros Hnone; try discriminate Hnone.
  all: eexists; do 2 right; left; reflexivity.
Qed.

(** C10 fails on a source URL that carries user information: the URL
    the blob client is made for, and the download goes to, keeps the user
    information in front of the first label of the host, although the
    host of the URL, as [urlparse] gives it, is
    [acc.blob.core.windows.net].  Line 56 takes the account from the
    netloc. *)
Theorem userinfo_in_contacted_url (env : Env) (w : World) (d : string) :
  mkdtemp env = inr d ->
  new_credential env = None ->
  from_blob_url env "https://user@acc.blob.core.windows.net/videos/in.mp4" = None ->
  In (EvBlobClient "https://user@acc.blob.core.windows.net/videos/in.mp4")
     (events env Scenario.userinfo_request w)
  /\ (exists r,
        In (EvDownload "https://user@acc.blob.core.windows.net/videos/in.mp4" r)
           (events env Scenario.userinfo_request w))
  /\ exists pr,
       UrlParse.urlparse (check_bracketed_host env) Scenario.userinfo_url = inr pr
       /\ UrlParse.hostname pr = Some "acc.blob.core.windows.net"
       /\ account_of (UrlParse.netloc pr) = "user@acc".
Proof.
  intros Hd Hcred Hclient.
  assert (Hrun := source_client_of_run env Scenario.userinfo_request w Scenario.userinfo_url
                    (JStr Scenario.container_url) (JStr "-c copy") d
                    (mkLocator "user@acc" "videos" "in.mp4")).
  destruct Hrun as [Hc Hdl]; try assumption; try (vm_compute; reflexivity).
  split; [exact Hc |]. split; [exact (Hdl Hclient) |].
  eexists. split; [vm_compute; reflexivity |]. split; vm_compute; reflexivity.
Qed.

Lemma userinfo_in_contacted_url_witness :
  In (EvBlobClient "https://user@acc.blob.core.windows.net/videos/in.mp4")
     (events (Scenario.platform Scenario.stamping_ffmpeg) Scenario.userinfo_request
             Scenario.storage).
Proof.
  refine (proj1 (userinfo_in_contacted_url (Scenario.platform Scenario.stamping_ffmpeg)
                   Scenario.storage "/tmp/tmpk3v9q" _ _ _)); reflexivity.
Defined.

(** ** The directory after a run that reached the upload *)

(** X1.  Once the transcoder has exited with zero the run reaches the
    upload, and whatever the upload does, the directory and the files
    under it are removed before [main] returns. *)
Theorem workspace_removed_after_transcoding
    (env : Env) (req : HttpRequest) (w : World)
    (d : string) (argv : list string) (stderr : string) :
  In (EvMkdtemp d) (events env req w) ->
  In (EvRun argv (inr (0%Z, stderr))) (events env req w) ->
  (d ∉ dirs (call env req w).2)
  /\ In (EvRmtree d) (events env req w)
  /\ (forall path, under d path = true -> files (call env req w).2 !! path = None).
Proof.
  destruct w as [d0 f0 b0 t0].
  unfold_run. split_run.
  all: list_events; intros Hin Hrun; use_events.
  all: try match goal with
           | H : negb (0 =? 0)%Z = true |- _ => discriminate H
           end.
  all: split;
    [ intros Hd; apply elem_of_difference in Hd as [_ Hd]; apply Hd;
      now apply elem_of_singleton
    |]; split; [tauto |].
  all: intros path Hp; apply map_lookup_filter_None; right; intros x _ Hx;
       cbn [fst] in Hx; congruence.
Qed.

Lemma workspace_removed_after_transcoding_witness :
  ("/tmp/tmpk3v9q" ∉ dirs (call (Scenario.platform Scenario.stamping_ffmpeg)
                                Scenario.transcode_request Scenario.storage).2)
  /\ In (EvRmtree "/tmp/tmpk3v9q")
        (events (Scenario.platform Scenario.stamping_ffmpeg)
                Scenario.transcode_request Scenario.storage)
  /\ (forall path, under "/tmp/tmpk3v9q" path = true ->
        files (call (Scenario.platform Scenario.stamping_ffmpeg)
                    Scenario.transcode_request Scenario.storage).2 !! path = None).
Proof.
  refine (workspace_removed_after_transcoding
            (Scenario.platform Scenario.stamping_ffmpeg)
            Scenario.transcode_request Scenario.storage "/tmp/tmpk3v9q"
            ["/usr/bin/ffmpeg"; "-i"; "/tmp/tmpk3v9q/input.mp4"; "-c"; "copy";
             "/tmp/tmpk3v9q/output.mp4"] "" _ _).
  - vm_compute. left. reflexivity.
  - vm_compute. do 3 right. left. reflexivity.
Defined.

Lemma missing_field_is_400_witness :
  status_of (call (Scenario.platform Scenario.stamping_ffmpeg)
                  (mkRequest (Some (JDict {[ "inputBlobUrl" := JStr Scenario.source_url ]})) ∅)
                  Scenario.storage).1 = Some 400%Z
  /\ (call (Scenario.platform Scenario.stamping_ffmpeg)
           (mkRequest (Some (JDict {[ "inputBlobUrl" := JStr Scenario.source_url ]})) ∅)
           Scenario.storage).2 = Scenario.storage.
Proof.
  refine (missing_field_is_400 (Scenario.platform Scenario.stamping_ffmpeg)
            (mkRequest (Some (JDict {[ "inputBlobUrl" := JStr Scenario.source_url ]})) ∅)
            Scenario.storage _ _).
  - right. eexists. reflexivity.
  - exists "ffmpegCommand". split; [cbn [In]; tauto |].
    exists JNull. split; vm_compute; reflexivity.
Defined.

Lemma clients_of_run_witness :
  (exists src loc,
      field Scenario.transcode_request "inputBlobUrl" = inr (JStr src)
      /\ parse_locator (check_bracketed_host (Scenario.platform Scenario.stamping_ffmpeg)) src
         = inr (Some loc)
      /\ Scenario.output_url
         = blob_url (accountName loc) (containerName loc) (objectPath loc))
  \/ (exists dest pr,
        field Scenario.transcode_request "outputContainerName" = inr (JStr dest)
        /\ UrlParse.urlparse (check_bracketed_host (Scenario.platform Scenario.stamping_ffmpeg))
             dest = inr pr
        /\ Scenario.output_url = output_blob_url_of pr).
Proof.
  refine (clients_of_run (Scenario.platform Scenario.stamping_ffmpeg)
            Scenario.transcode_request Scenario.storage Scenario.output_url _).
  vm_compute. do 4 right. left. reflexivity.
Defined.

(** ** The rebuilt URL of a bare host *)

Lemma account_of_label (label rest : string) :
  Py.char_in "." label = false ->
  account_of (label ++ String "." rest) = label.
Proof.
  unfold account_of. induction label as [|d label IH]; intros H; [reflexivity |].
  rewrite char_in_cons in H. rewrite append_cons, split_cons.
  rewrite (Ascii.eqb_sym d ".").
  destruct (Ascii.eqb "." d); [discriminate |].
  specialize (IH H).
  destruct (Py.split "." (label ++ String "." rest)) as [|x l] eqn:E;
    [now apply split_not_nil in E |].
  cbn [hd] in *. now rewrite IH.
Qed.

(** X4.  For a source URL whose authority is a bare host, a first label
    and a domain, the URL the code rebuilds is [https://], the label as
    written, the fixed domain [.blob.core.windows.net], the container and
    the object path: the scheme and the domain of the URL do not appear
    in it. *)
Theorem rebuilt_url_of_bare_host
    (chk : string -> option string) (sch label domain p : string)
    (loc : StorageLocator) :
  scheme_ok sch = true ->
  host_ok (label ++ String "." domain) = true ->
  Py.char_in "." label = false ->
  parse_locator chk (url_of sch (label ++ String "." domain) p) = inr (Some loc) ->
  accountName loc = label
  /\ blob_url (accountName loc) (containerName loc) (objectPath loc)
     = "https://" ++ label ++ ".blob.core.windows.net/"
       ++ containerName loc ++ "/" ++ objectPath loc.
Proof.
  intros Hs Hh Hl Hp.
  destruct (UrlFacts.urlparse_url_of chk sch p Hs) as (path & prm & qry & frag & Hu).
  unfold parse_locator in Hp. rewrite (Hu _ Hh) in Hp.
  injection Hp as Hp. unfold locate in Hp. cbn [UrlParse.netloc UrlParse.path] in Hp.
  destruct (match path_parts_of path with [] => true | _ :: _ => false end
            || (length (path_parts_of path) <? 2)%nat); [discriminate |].
  injection Hp as <-. cbn [accountName containerName objectPath].
  rewrite (account_of_label label domain Hl). split; reflexivity.
Qed.

Lemma rebuilt_url_of_bare_host_witness :
  accountName (mkLocator "acc" "videos" "in.mp4") = "acc"
  /\ blob_url (accountName (mkLocator "acc" "videos" "in.mp4"))
       (containerName (mkLocator "acc" "videos" "in.mp4"))
       (objectPath (mkLocator "acc" "videos" "in.mp4"))
     = "https://" ++ "acc" ++ ".blob.core.windows.net/"
       ++ containerName (mkLocator "acc" "videos" "in.mp4") ++ "/"
       ++ objectPath (mkLocator "acc" "videos" "in.mp4").
Proof.
  refine (rebuilt_url_of_bare_host (fun _ => None) "http" "acc" "example.org" "videos/in.mp4"
            (mkLocator "acc" "videos" "in.mp4") _ _ _ _); vm_compute; reflexivity.
Defined.

(** ** More on the text functions *)

Lemma join_cons2 (sep a b : string) (l : list string) :
  Py.join sep (a :: b :: l) = a ++ sep ++ Py.join sep (b :: l).
Proof. reflexivity. Qed.

(** Joining what [split] gave with the separator gives the text back. *)
Lemma join_split (c : ascii) (s : string) :
  Py.join (String c EmptyString) (Py.split c s) = s.
Proof.
  induction s as [|d s IH]; [reflexivity |].
  rewrite split_cons. destruct (Ascii.eqb_spec d c) as [->|Hne].
  - destruct (Py.split c s) as [|w ws] eqn:E; [now apply split_not_nil in E |].
    rewrite join_cons2, IH. reflexivity.
  - destruct (Py.split c s) as [|w ws] eqn:E; [now apply split_not_nil in E |].
    destruct ws as [|w' ws].
    + cbn [Py.join] in *. now rewrite IH.
    + rewrite join_cons2 in *. rewrite append_cons. now rewrite IH.
Qed.

(** No part that [split] gives holds the separator. *)
Lemma split_parts_without_separator (c : ascii) (s : string) :
  Forall (fun part => Py.char_in c part = false) (Py.split c s).
Proof.
  induction s as [|d s IH]; [repeat constructor |].
  rewrite split_cons. destruct (Ascii.eqb d c) eqn:E.
  - constructor; [reflexivity | exact IH].
  - destruct (Py.split c s) as [|w ws]; [repeat constructor; cbn; now rewrite Ascii.eqb_sym, E |].
    inversion IH as [|? ? Hw Hws]; subst. constructor; [| exact Hws].
    rewrite char_in_cons, Ascii.eqb_sym, E. exact Hw.
Qed.

(** X5.  The locator loses nothing of the path: the container, a slash
    and the object path are the path of the URL without its leading and
    trailing slashes, and the container holds no slash. *)
Theorem locator_covers_path (pr : UrlParse.ParseResult) (loc : StorageLocator) :
  locate pr = Some loc ->
  containerName loc ++ "/" ++ objectPath loc = Py.strip "/" (UrlParse.path pr)
  /\ Py.char_in "/" (containerName loc) = false
  /\ accountName loc = account_of (UrlParse.netloc pr).
Proof.
  unfold locate. intros H.
  assert (Hj := join_split "/" (Py.strip "/" (UrlParse.path pr))).
  assert (Hf := split_parts_without_separator "/" (Py.strip "/" (UrlParse.path pr))).
  fold (path_parts_of (UrlParse.path pr)) in Hj, Hf.
  destruct (path_parts_of (UrlParse.path pr)) as [|a [|b l]]; try discriminate.
  cbn in H. injection H as <-. cbn [containerName objectPath accountName hd tl].
  rewrite join_cons2 in Hj. split; [exact Hj |]. split; [| reflexivity].
  now inversion Hf.
Qed.

Lemma locator_covers_path_witness :
  containerName (mkLocator "acc" "videos" "a/in.mp4") ++ "/"
    ++ objectPath (mkLocator "acc" "videos" "a/in.mp4")
  = Py.strip "/" (UrlParse.path
      (UrlParse.mkParseResult "https" "acc.blob.core.windows.net" "//videos/a/in.mp4/" "" "" ""))
  /\ Py.char_in "/" (containerName (mkLocator "acc" "videos" "a/in.mp4")) = false
  /\ accountName (mkLocator "acc" "videos" "a/in.mp4")
     = account_of (UrlParse.netloc
         (UrlParse.mkParseResult "https" "acc.blob.core.windows.net" "//videos/a/in.mp4/" "" "" "")).
Proof.
  refine (locator_covers_path
            (UrlParse.mkParseResult "https" "acc.blob.core.windows.net" "//videos/a/in.mp4/" "" "" "")
            (mkLocator "acc" "videos" "a/in.mp4") _).
  vm_compute. reflexivity.
Defined.

(** ** More on the tokenizer *)

Lemma lex_plain_words (words : list string) :
  Forall (fun w => Py.nonempty w = true /\ Py.all_chars Shlex.plain w = true) words ->
  forall esc,
    Shlex.lex Shlex.InWhitespace esc false "" (Py.join " " words) = inr words.
Proof.
  induction words as [|w rest IH]; intros H esc; [reflexivity |].
  inversion H as [|? ? [Hne Hw] Hrest]; subst.
  destruct w as [|c w]; [discriminate |].
  cbn [Py.all_chars] in Hw. apply andb_prop in Hw as [Hc Hw].
  destruct rest as [|w2 rest].
  - cbn [Py.join]. rewrite ShlexFacts.lex_open_word by exact Hc.
    rewrite <- (append_nil_r w) at 1.
    rewrite ShlexFacts.lex_word_plain by exact Hw.
    rewrite append_cons, append_nil_l. reflexivity.
  - rewrite join_cons2, append_cons.
    rewrite ShlexFacts.lex_open_word by exact Hc.
    rewrite ShlexFacts.lex_word_plain by exact Hw.
    rewrite !append_cons, !append_nil_l.
    rewrite ShlexFacts.lex_word_blank by reflexivity.
    now rewrite (IH Hrest).
Qed.

(** X6.  An instruction made of words that hold no blank, no quote and
    no backslash, with one blank between them, is split into exactly
    these words. *)
Theorem split_plain_words (words : list string) :
  Forall (fun w => Py.nonempty w = true /\ Py.all_chars Shlex.plain w = true) words ->
  Shlex.split (Py.join " " words) = inr words.
Proof. intros H. unfold Shlex.split. now apply lex_plain_words. Qed.

Lemma split_plain_words_witness :
  Shlex.split (Py.join " " ["-c:v"; "libx264"; "-crf"; "23"])
  = inr ["-c:v"; "libx264"; "-crf"; "23"].
Proof.
  refine (split_plain_words ["-c:v"; "libx264"; "-crf"; "23"] _).
  repeat constructor.
Defined.

Lemma lex_open_quote (q : ascii) (value : string) :
  forall esc quoted tok,
    Py.char_in q value = false ->
    (Py.char_in q Shlex.escapedquotes = true -> Py.char_in "\" value = false) ->
    Shlex.lex (Shlex.InQuote q) esc quoted tok value
    = inl (ValueError "No closing quotation").
Proof.
  induction value as [|c value IH]; intros esc quoted tok Hq He; [reflexivity |].
  rewrite char_in_cons in Hq.
  destruct (Ascii.eqb q c) eqn:Hqc; [discriminate |].
  cbn [Shlex.lex]. rewrite (Ascii.eqb_sym c q), Hqc.
  assert (Hesc : Py.char_in c Shlex.escape && Py.char_in q Shlex.escapedquotes = false).
  { destruct (Py.char_in q Shlex.escapedquotes); [| apply andb_false_r].
    specialize (He eq_refl). rewrite char_in_cons in He.
    rewrite andb_true_r. unfold Shlex.escape. rewrite char_in_cons.
    rewrite (Ascii.eqb_sym c "\").
    destruct (Ascii.eqb "\" c); [discriminate | reflexivity]. }
  rewrite Hesc. apply IH; [exact Hq |].
  intros Hd. specialize (He Hd). rewrite char_in_cons in He.
  destruct (Ascii.eqb "\" c); [discriminate | exact He].
Qed.

(** X7.  An instruction whose last quote is left open, or that ends in
    a backslash, is not split: [shlex.split] raises [ValueError], with
    [No closing quotation] or [No escaped character]. *)
Theorem split_raises_on_open_quote (q : ascii) (flag value : string) :
  Py.char_in q Shlex.quotes = true ->
  Py.nonempty flag = true ->
  Py.all_chars Shlex.plain flag = true ->
  Py.char_in q value = false ->
  (Py.char_in q Shlex.escapedquotes = true -> Py.char_in "\" value = false) ->
  Shlex.split (flag ++ " " ++ String q value) = inl (ValueError "No closing quotation")
  /\ Shlex.split (String q value) = inl (ValueError "No closing quotation")
  /\ Shlex.split (flag ++ "\") = inl (ValueError "No escaped character").
Proof.
  intros Hq Hne Hflag Hv He.
  destruct (ShlexFacts.quote_char_cases q Hq) as (Hqw & Hqe & Hqn).
  assert (Hopen : forall esc quoted tok,
             Shlex.lex Shlex.InWhitespace esc quoted tok (String q value)
             = inl (ValueError "No closing quotation")).
  { intros esc quoted tok. cbn [Shlex.lex]. rewrite Hqw, Hqe, Hqn, Hq.
    cbn [Shlex.commenters Shlex.punctuation_chars Py.char_in].
    now apply lex_open_quote. }
  destruct flag as [|c flag]; [discriminate |]. cbn [Py.all_chars] in Hflag.
  apply andb_prop in Hflag as [Hc Hflag].
  split; [| split].
  - unfold Shlex.split.
    rewrite append_cons, ShlexFacts.lex_open_word by exact Hc.
    rewrite ShlexFacts.lex_word_plain by exact Hflag.
    rewrite !append_cons, !append_nil_l.
    rewrite ShlexFacts.lex_word_blank by reflexivity.
    now rewrite Hopen.
  - apply Hopen.
  - unfold Shlex.split.
    rewrite append_cons, ShlexFacts.lex_open_word by exact Hc.
    rewrite ShlexFacts.lex_word_plain by exact Hflag.
    reflexivity.
Qed.

Lemma split_raises_on_open_quote_witness :
  Shlex.split ("-vf" ++ " " ++ String "034" "scale=1280:720")
  = inl (ValueError "No closing quotation")
  /\ Shlex.split (String "034" "scale=1280:720") = inl (ValueError "No closing quotation")
  /\ Shlex.split ("-vf" ++ "\") = inl (ValueError "No escaped character").
Proof.
  refine (split_raises_on_open_quote "034" "-vf" "scale=1280:720" _ _ _ _ _);
    intros; vm_compute; reflexivity.
Defined.

(** ** Finding the binary *)


(** ** The order and the number of the calls *)

Ltac know_exit_code :=
  repeat match goal with
         | H : negb (_ =? 0)%Z = false |- _ => apply negb_false_iff in H
         | H : negb (_ =? 0)%Z = true |- _ => apply negb_true_iff in H
         end;
  repeat match goal with
         | H : (_ =? 0)%Z = _ |- _ => rewrite H
         end.

(** X9.  In every run the transcoder is launched only after a download
    that handed back the blob, and an upload is made only after the
    transcoder exited with zero; a run makes at most one directory, one
    download, one launch and one upload. *)
Theorem calls_in_order (env : Env) (req : HttpRequest) (w : World) :
  each_preceded is_download_ok is_run false (events env req w) = true
  /\ each_preceded is_clean_exit is_upload false (events env req w) = true
  /\ (count_calls is_download_ok (events env req w) <= 1)%nat
  /\ (count_calls is_run (events env req w) <= 1)%nat
  /\ (count_calls is_upload (events env req w) <= 1)%nat.
Proof.
  destruct w as [d0 f0 b0 t0].
  unfold_run. split_run.
  all: list_events.
  all: cbn [each_preceded is_run is_clean_exit is_download_ok is_upload count_calls
            List.filter length andb orb].
  all: know_exit_code.
  all: repeat split; first [reflexivity | lia].
Qed.

(** ** What a run leaves in the storage *)

(** X10.  The storage changes exactly when [main] answers 200, and then
    by the one blob of the upload; with any other outcome, a response or
    an exception, the storage is as it was and no upload was accepted. *)
Theorem storage_changes_only_on_200 (env : Env) (req : HttpRequest) (w : World) :
  (status_of (call env req w).1 = Some 200%Z
   /\ exists url data,
        In (EvUpload url true data None) (events env req w)
        /\ blobs (call env req w).2 = <[url := data]> (blobs w))
  \/ (status_of (call env req w).1 <> Some 200%Z
      /\ blobs (call env req w).2 = blobs w
      /\ forallb (fun ev => negb (is_upload_ok ev)) (events env req w) = true).
Proof.
  destruct w as [d0 f0 b0 t0].
  unfold_run. split_run.
  all: list_events; cbn [is_upload_ok].
  all: first
    [ right; split; [discriminate |]; split; reflexivity
    | left; split; [reflexivity |]; eexists _, _; split; [| reflexivity];
      do 5 right; left; reflexivity ].
Qed.

(** X11.  When [main] answers 200, the blob it stored holds the bytes
    the transcoder left in [output.mp4] of the directory, after a launch
    in which [input.mp4] of the directory held the bytes of the source
    blob and the last argument was that [output.mp4]. *)
Theorem stored_bytes_are_transcoder_output (env : Env) (req : HttpRequest) (w : World) :
  status_of (call env req w).1 = Some 200%Z ->
  exists d src data_in argv stderr files' data_out dest,
    mkdtemp env = inr d
    /\ blobs w !! src = Some data_in
    /\ subprocess_run env argv
         (<[Py.path_join d "input.mp4" := data_in]>
            (<[Py.path_join d "input.mp4" := []]> (files w)))
       = inr (0%Z, stderr, files')
    /\ nth 2 argv EmptyString = Py.path_join d "input.mp4"
    /\ last argv = Some (Py.path_join d "output.mp4")
    /\ files' !! Py.path_join d "output.mp4" = Some data_out
    /\ blobs (call env req w).2 = <[dest := data_out]> (blobs w).
Proof.
  destruct w as [d0 f0 b0 t0].
  unfold_run. split_run.
  all: intros Hs; try discriminate Hs.
  all: know_exit_code.
  all: match goal with
       | H : (?z =? 0)%Z = true |- _ => apply Z.eqb_eq in H; subst z
       end.
  all: match goal with
       | H : download_result _ _ ?u = inr ?l |- _ =>
           unfold download_result in H; cbn [blobs] in H;
           destruct (download_fault env u); [discriminate H |];
           destruct (b0 !! u) eqn:Hsrc; [| discriminate H];
           injection H as ->
       end.
  all: eexists _, _, _, _, _, _, _, _.
  all: split; [reflexivity |]; split; [exact Hsrc |]; split; [eassumption |].
  all: split; [reflexivity |]; split; [apply last_snoc |]; split; [eassumption |].
  all: reflexivity.
Qed.

(** X12.  With a transcoder that copies its input to its output, a run
    that answers 200 stored at the destination the very bytes of the
    source blob. *)
Theorem identity_transcoding_round_trip (env : Env) (req : HttpRequest) (w : World) :
  subprocess_run env = Faults.copying_ffmpeg ->
  status_of (call env req w).1 = Some 200%Z ->
  exists src dest data,
    blobs w !! src = Some data
    /\ blobs (call env req w).2 !! dest = Some data
    /\ In (EvDownload src (inr data)) (events env req w)
    /\ In (EvUpload dest true data None) (events env req w).
Proof.
  intros Hcopy. destruct w as [d0 f0 b0 t0].
  unfold_run. rewrite Hcopy. unfold Faults.copying_ffmpeg.
  cbv beta iota zeta delta [trace blobs dirs files fst snd].
  split_run.
  all: list_events; intros Hs; try discriminate Hs.
  all: match goal with
       | H : download_result _ _ ?u = inr ?l |- _ =>
           unfold download_result in H; cbn [blobs] in H;
           destruct (download_fault env u); [discriminate H |];
           destruct (b0 !! u) eqn:Hsrc; [| discriminate H];
           injection H as ->
       end.
  all: cbn [nth app] in *.
  all: repeat match goal with
              | H : context [last (_ :: _)] |- _ =>
                  first [ rewrite ?app_comm_cons in H; rewrite last_snoc in H
                        | progress cbn [last] in H ];
                  cbn [from_option id] in H
              end.
  all: repeat match goal with
              | H : <[?k := _]> _ !! ?k = _ |- _ => rewrite lookup_insert_eq in H
              | H : Some _ = Some _ |- _ => injection H as ?; subst
              | H : None = Some _ |- _ => discriminate H
              | H : Some _ = None |- _ => discriminate H
              | H : @eq (_ + _) _ _ |- _ => first [discriminate H | injection H; clear H; intros; subst]
              end.
  all: eexists _, _, _; split; [exact Hsrc |]; split; [apply lookup_insert_eq |].
  all: split; [do 2 right; left; reflexivity | do 5 right; left; reflexivity].
Qed.

(** ** The launch of the transcoder *)

(** X13.  Every launch is made with the first candidate binary that
    exists, then [-i] and [input.mp4] of the directory, then the tokens
    of the instruction of the request, then [output.mp4] of the
    directory. *)
Theorem launched_argv (env : Env) (req : HttpRequest) (w : World)
    (argv : list string) (r : exn + Z * string) :
  In (EvRun argv r) (events env req w) ->
  exists d ffmpeg_path instruction tokens,
    In (EvMkdtemp d) (events env req w)
    /\ find_ffmpeg env (ffmpeg_locations env) = Some ffmpeg_path
    /\ field req "ffmpegCommand" = inr (JStr instruction)
    /\ Shlex.split instruction = inr tokens
    /\ argv = ([ffmpeg_path; "-i"; Py.path_join d "input.mp4"] ++ tokens
               ++ [Py.path_join d "output.mp4"])%list.
Proof.
  destruct w as [d0 f0 b0 t0].
  unfold_run. split_run.
  all: list_events; intros Hin; use_events.
  all: try match goal with
           | H : _ || negb false = false |- _ =>
               cbn [negb] in H; rewrite orb_true_r in H; discriminate H
           end.
  all: eexists _, _, _, _; split; [left; reflexivity |]; split; [reflexivity |].
  all: split; [reflexivity |]; split; [eassumption |].
  all: first [reflexivity | now rewrite <- app_assoc].
Qed.

(** X14.  When the blob was downloaded and no candidate binary exists,
    [main] answers 500 with [FFmpeg binary not found]; nothing is
    launched and the storage is as it was. *)
Theorem no_binary_is_500 (env : Env) (req : HttpRequest) (w : World)
    (src : string) (data : bytes) :
  In (EvDownload src (inr data)) (events env req w) ->
  find_ffmpeg env (ffmpeg_locations env) = None ->
  (call env req w).1 = Response (mkResponse "FFmpeg binary not found" 500)
  /\ count_calls is_run (events env req w) = 0%nat
  /\ blobs (call env req w).2 = blobs w.
Proof.
  intros Hin Hnone. revert Hin.
  destruct w as [d0 f0 b0 t0].
  unfold_run. rewrite Hnone. cbv beta iota. split_run.
  all: list_events; cbn [count_calls List.filter is_run length]; intros Hin; use_events.
  all: repeat split; reflexivity.
Qed.

(** X15.  When the launch of the transcoder raises, [main] answers 500
    with [Error executing FFmpeg: ] and the text of the exception; no
    upload is made and the storage is as it was. *)
Theorem launch_failure_is_500 (env : Env) (req : HttpRequest) (w : World)
    (argv : list string) (e : exn) :
  In (EvRun argv (inl e)) (events env req w) ->
  (call env req w).1
  = Response (mkResponse ("Error executing FFmpeg: " ++ str_of_exn e) 500)
  /\ count_calls is_upload (events env req w) = 0%nat
  /\ blobs (call env req w).2 = blobs w.
Proof.
  destruct w as [d0 f0 b0 t0].
  unfold_run. split_run.
  all: list_events; cbn [count_calls List.filter is_upload length]; intros Hin; use_events.
  all: repeat split; reflexivity.
Qed.

(** X16.  When the blob was downloaded, a binary exists and
    [shlex.split] raises on the instruction, [main] answers 500 with
    [Error executing FFmpeg: ] and the text of the exception, and the
    transcoder is not launched. *)
Theorem tokenizer_error_is_500 (env : Env) (req : HttpRequest) (w : World)
    (src instruction ffmpeg_path : string) (data : bytes) (e : exn) :
  In (EvDownload src (inr data)) (events env req w) ->
  find_ffmpeg env (ffmpeg_locations env) = Some ffmpeg_path ->
  field req "ffmpegCommand" = inr (JStr instruction) ->
  Shlex.split instruction = inl e ->
  (call env req w).1
  = Response (mkResponse ("Error executing FFmpeg: " ++ str_of_exn e) 500)
  /\ count_calls is_run (events env req w) = 0%nat
  /\ blobs (call env req w).2 = blobs w.
Proof.
  intros Hin Hbin Hcmd Hsplit. revert Hin.
  destruct w as [d0 f0 b0 t0].
  unfold_run. rewrite Hbin, Hcmd. cbv beta iota. rewrite Hsplit. cbv beta iota.
  split_run.
  all: list_events; cbn [count_calls List.filter is_run length]; intros Hin; use_events.
  all: try (repeat split; reflexivity).
  all: match goal with
       | H : _ || negb false = false |- _ =>
           cbn [negb] in H; rewrite orb_true_r in H; discriminate H
       end.
Qed.

(** X17.  Once the transcoder has exited with zero, [main] either
    answers 200 or answers 500 with [Video processing completed but
    upload failed: ] and the text of the exception; in the second case
    the storage is as it was. *)
Theorem after_transcoding (env : Env) (req : HttpRequest) (w : World)
    (argv : list string) (stderr : string) :
  In (EvRun argv (inr (0%Z, stderr))) (events env req w) ->
  (call env req w).1 = Response (mkResponse "Video processed successfully" 200)
  \/ exists e,
       (call env req w).1
       = Response (mkResponse
           ("Video processing completed but upload failed: " ++ str_of_exn e) 500)
       /\ blobs (call env req w).2 = blobs w.
Proof.
  destruct w as [d0 f0 b0 t0].
  unfold_run. split_run.
  all: list_events; intros Hin; use_events.
  all: try match goal with
           | H : negb (0 =? 0)%Z = true |- _ => discriminate H
           end.
  all: first [ left; reflexivity | right; eexists; split; reflexivity ].
Qed.

(** X18.  When the download raises anything but
    [ResourceNotFoundError], [main] answers 500 with [Error downloading
    input file: ] and the text of the exception; nothing is launched and
    the storage is as it was. *)
Theorem download_error_is_500 (env : Env) (req : HttpRequest) (w : World)
    (url : string) (e : exn) :
  In (EvDownload url (inl e)) (events env req w) ->
  (forall msg, e <> ResourceNotFoundError msg) ->
  (call env req w).1
  = Response (mkResponse ("Error downloading input file: " ++ str_of_exn e) 500)
  /\ count_calls is_run (events env req w) = 0%nat
  /\ blobs (call env req w).2 = blobs w.
Proof.
  destruct w as [d0 f0 b0 t0].
  unfold_run. split_run.
  all: list_events; cbn [count_calls List.filter is_run length];
       intros Hin Hne; use_events.
  all: try (repeat split; reflexivity).
  all: exfalso; eapply Hne; reflexivity.
Qed.

(** X19.  [main] answers with one of the statuses 200, 400, 404 and 500.
    An exception escapes it only from the reading of the fields or from
    the creation of the directory, and then nothing was done. *)
Theorem outcomes_of_main (env : Env) (req : HttpRequest) (w : World) :
  match (call env req w).1 with
  | Response r => In (status_code r) [200; 400; 404; 500]%Z
  | Crash e =>
      (field req "inputBlobUrl" = inl e \/ mkdtemp env = inl e)
      /\ (call env req w).2 = w
  end.
Proof.
  destruct w as [d0 f0 b0 t0].
  unfold_run. split_run.
  all: cbn [In]; try tauto.
  all: split; [| reflexivity].
  all: first [ left; reflexivity | right; reflexivity | idtac ].
  all: match goal with
       | H1 : field ?r "inputBlobUrl" = inr _, H2 : field ?r _ = inl _ |- _ =>
           destruct (field_raises_alike r _ "outputContainerName" _ H1) as [? Hx];
           destruct (field_raises_alike r _ "ffmpegCommand" _ H1) as [? Hy];
           congruence
       end.
Qed.

(** ** What of the URL reaches the rebuilt URL *)

Module Without.

Lemma lstrip_without (d : ascii) (chars s : string) :
  Py.char_in d s = false -> Py.char_in d (Py.lstrip chars s) = false.
Proof.
  induction s as [|c s IH]; intros H; [reflexivity |].
  cbn [Py.lstrip]. destruct (Py.char_in c chars); [| exact H].
  rewrite char_in_cons in H. destruct (Ascii.eqb d c); [discriminate | now apply IH].
Qed.

Lemma rstrip_without (d : ascii) (chars s : string) :
  Py.char_in d s = false -> Py.char_in d (Py.rstrip chars s) = false.
Proof.
  induction s as [|c s IH]; intros H; [reflexivity |].
  rewrite char_in_cons in H. destruct (Ascii.eqb d c) eqn:E; [discriminate |].
  specialize (IH H). rewrite rstrip_cons.
  destruct (Py.rstrip chars s) as [|x r].
  - destruct (Py.char_in c chars); [reflexivity |]. now rewrite char_in_cons, E.
  - now rewrite char_in_cons, E.
Qed.

Lemma split_without (d c : ascii) (s : string) :
  Py.char_in d s = false ->
  Forall (fun part => Py.char_in d part = false) (Py.split c s).
Proof.
  induction s as [|x s IH]; intros H; [repeat constructor |].
  rewrite char_in_cons in H. destruct (Ascii.eqb d x) eqn:E; [discriminate |].
  specialize (IH H). rewrite split_cons. destruct (Ascii.eqb x c).
  - constructor; [reflexivity | exact IH].
  - destruct (Py.split c s) as [|w ws].
    + repeat constructor. now rewrite char_in_cons, E.
    + inversion IH; subst. constructor; [| assumption]. now rewrite char_in_cons, E.
Qed.

Lemma join_without (d : ascii) (sep : string) (l : list string) :
  Py.char_in d sep = false ->
  Forall (fun part => Py.char_in d part = false) l ->
  Py.char_in d (Py.join sep l) = false.
Proof.
  intros Hsep. induction l as [|a l IH]; intros H; [reflexivity |].
  inversion H as [|? ? Ha Hl]; subst. destruct l as [|b l]; [exact Ha |].
  rewrite join_cons2, !char_in_append, Ha, Hsep, (IH Hl). reflexivity.
Qed.

Lemma partition_cons (c x : ascii) (s : string) :
  Py.partition c (String x s)
  = if Ascii.eqb x c then (EmptyString, true, s)
    else let '(a, found, b) := Py.partition c s in (String x a, found, b).
Proof. reflexivity. Qed.

Lemma partition_before_without (d c : ascii) (s : string) :
  Py.char_in d s = false -> Py.char_in d (Py.partition c s).1.1 = false.
Proof.
  induction s as [|x s IH]; intros H; [reflexivity |].
  rewrite char_in_cons in H. destruct (Ascii.eqb d x) eqn:E; [discriminate |].
  rewrite partition_cons. destruct (Ascii.eqb x c); [reflexivity |].
  specialize (IH H). destruct (Py.partition c s) as [[a f] b].
  cbn [fst] in *. now rewrite char_in_cons, E.
Qed.

Lemma partition_before_separator (c : ascii) (s : string) :
  Py.char_in c (Py.partition c s).1.1 = false.
Proof.
  induction s as [|x s IH]; [reflexivity |].
  rewrite partition_cons. destruct (Ascii.eqb x c) eqn:E; [reflexivity |].
  destruct (Py.partition c s) as [[a f] b]. cbn [fst] in *.
  now rewrite char_in_cons, Ascii.eqb_sym, E.
Qed.

Lemma break_at_before (d : ascii) (stop s : string) :
  Py.char_in d stop = true -> Py.char_in d (UrlParse.break_at stop s).1 = false.
Proof.
  intros Hd. induction s as [|x s IH]; [reflexivity |].
  cbn [UrlParse.break_at]. destruct (Py.char_in x stop) eqn:E; [reflexivity |].
  destruct (UrlParse.break_at stop s) as [a b]. cbn [fst] in *.
  rewrite char_in_cons. destruct (Ascii.eqb_spec d x) as [->|_]; [congruence | exact IH].
Qed.

Lemma rbreak_without (d c : ascii) (s : string) :
  Py.char_in d s = false ->
  Py.char_in d (UrlParse.rbreak c s).1 = false
  /\ Py.char_in d (UrlParse.rbreak c s).2 = false.
Proof.
  induction s as [|x s IH]; intros H; [split; reflexivity |].
  cbn [UrlParse.rbreak]. destruct (Py.char_in c s); [| split; [reflexivity | exact H]].
  rewrite char_in_cons in H. destruct (Ascii.eqb d x) eqn:E; [discriminate |].
  destruct (IH H) as [H1 H2]. destruct (UrlParse.rbreak c s) as [a b].
  cbn [fst snd] in *. split; [| exact H2]. now rewrite char_in_cons, E.
Qed.

Lemma splitparams_without (d : ascii) (u : string) :
  Py.char_in d u = false -> Py.char_in d (UrlParse.splitparams u).1 = false.
Proof.
  intros H. unfold UrlParse.splitparams. destruct (Py.char_in "/" u).
  - destruct (rbreak_without d "/" u H) as [H1 H2].
    destruct (UrlParse.rbreak "/" u) as [h t]. cbn [fst snd] in *.
    assert (Ha := partition_before_without d ";" t H2).
    destruct (Py.partition ";" t) as [[a f] b]. cbn [fst] in *.
    destruct f; cbn [fst]; [| exact H]. now rewrite char_in_append, H1, Ha.
  - assert (Ha := partition_before_without d ";" u H).
    destruct (Py.partition ";" u) as [[a f] b]. exact Ha.
Qed.

(** The path [urlsplit] gives holds no question mark and no hash. *)
Lemma split_query_fragment_path (url : string) :
  Py.char_in "?" (UrlParse.split_query_fragment url).1.1 = false
  /\ Py.char_in "#" (UrlParse.split_query_fragment url).1.1 = false.
Proof.
  unfold UrlParse.split_query_fragment.
  assert (H : exists u frag,
             (if Py.char_in "#" url
              then let '(a, _, b) := Py.partition "#" url in (a, b)
              else (url, EmptyString)) = (u, frag)
             /\ Py.char_in "#" u = false).
  { destruct (Py.char_in "#" url) eqn:E.
    - assert (Hs := partition_before_separator "#" url).
      destruct (Py.partition "#" url) as [[a f] b]. eauto.
    - eauto. }
  destruct H as (u & frag & -> & Hu).
  destruct (Py.char_in "?" u) eqn:E.
  - assert (Hs := partition_before_separator "?" u).
    assert (Hw := partition_before_without "#" "?" u Hu).
    destruct (Py.partition "?" u) as [[a f] b]. cbn [fst] in *. now split.
  - cbn [fst]. now split.
Qed.

(** The netloc [urlsplit] gives holds no slash, no question mark and no
    hash. *)
Lemma split_authority_netloc (d : ascii) (url : string) :
  Py.char_in d "/?#" = true ->
  Py.char_in d (UrlParse.split_authority url).1.2 = false.
Proof.
  intros Hd. unfold UrlParse.split_authority.
  destruct (UrlParse.split_scheme _) as [sch rest].
  destruct (Py.startswith "//" rest); [| reflexivity].
  unfold UrlParse.splitnetloc. destruct rest as [|x [|y rest]]; try reflexivity.
  assert (H := break_at_before d "/?#" rest Hd).
  destruct (UrlParse.break_at "/?#" rest) as [a b]. exact H.
Qed.

Lemma urlparse_without (chk : string -> option string) (url : string)
    (pr : UrlParse.ParseResult) (d : ascii) :
  UrlParse.urlparse chk url = inr pr ->
  d = "?"%char \/ d = "#"%char ->
  Py.char_in d (UrlParse.netloc pr) = false /\ Py.char_in d (UrlParse.path pr) = false.
Proof.
  intros Hu Hd. unfold UrlParse.urlparse, UrlParse.urlsplit in Hu.
  assert (Hn := split_authority_netloc d url).
  destruct (UrlParse.split_authority url) as [[[sch has] nl] rest]. cbn [fst snd] in Hn.
  destruct (UrlParse.netloc_error chk has nl); [discriminate |].
  destruct (split_query_fragment_path rest) as [Hq Hf].
  destruct (UrlParse.split_query_fragment rest) as [[u qry] frag]. cbn [fst] in Hq, Hf.
  assert (Hdu : Py.char_in d u = false) by (destruct Hd as [->| ->]; assumption).
  assert (Hp := splitparams_without d u Hdu).
  destruct (existsb (String.eqb sch) UrlParse.uses_params && Py.char_in ";" u).
  - destruct (UrlParse.splitparams u) as [path prm]. injection Hu as <-.
    cbn [UrlParse.netloc UrlParse.path fst] in *. split; [| exact Hp].
    apply Hn. destruct Hd as [->| ->]; reflexivity.
  - injection Hu as <-. cbn [UrlParse.netloc UrlParse.path]. split; [| exact Hdu].
    apply Hn. destruct Hd as [->| ->]; reflexivity.
Qed.

End Without.

(** X20.  Neither the query string nor the fragment of the source URL
    reaches the URL the code rebuilds: the rebuilt URL holds no question
    mark and no hash. *)
Theorem rebuilt_url_without_query
    (chk : string -> option string) (url : string) (loc : StorageLocator) :
  parse_locator chk url = inr (Some loc) ->
  Py.char_in "?" (blob_url (accountName loc) (containerName loc) (objectPath loc)) = false
  /\ Py.char_in "#" (blob_url (accountName loc) (containerName loc) (objectPath loc)) = false.
Proof.
  unfold parse_locator. intros H.
  destruct (UrlParse.urlparse chk url) as [e|pr] eqn:Hu; [discriminate |].
  injection H as H.
  assert (Hall : forall d, d = "?"%char \/ d = "#"%char ->
            Py.char_in d (blob_url (accountName loc) (containerName loc) (objectPath loc))
            = false).
  { intros d Hd.
    destruct (Without.urlparse_without chk url pr d Hu Hd) as [Hn Hp].
    assert (Hparts : Forall (fun part => Py.char_in d part = false)
                       (path_parts_of (UrlParse.path pr))).
    { apply Without.split_without, Without.rstrip_without, Without.lstrip_without. exact Hp. }
    assert (Hacc : Py.char_in d (account_of (UrlParse.netloc pr)) = false).
    { unfold account_of.
      assert (Hs := Without.split_without d "." _ Hn).
      destruct (Py.split "." (UrlParse.netloc pr)); [reflexivity | now inversion Hs]. }
    unfold locate in H.
    destruct (path_parts_of (UrlParse.path pr)) as [|a [|b l]]; try discriminate.
    cbn [orb length Nat.ltb Nat.leb hd tl] in H.
    injection H as <-. cbn [accountName containerName objectPath].
    inversion Hparts as [|? ? Ha Hl]; subst.
    assert (Hobj : Py.char_in d (Py.join "/" (b :: l)) = false).
    { apply Without.join_without; [destruct Hd as [->| ->]; reflexivity | exact Hl]. }
    cbn [Py.join] in Hobj.
    unfold blob_url. rewrite !char_in_append, Hacc, Ha, Hobj.
    destruct Hd as [->| ->]; reflexivity. }
  split; apply Hall; auto.
Qed.

Lemma rebuilt_url_without_query_witness :
  Py.char_in "?" (blob_url (accountName (mkLocator "acc" "videos" "in.mp4"))
                           (containerName (mkLocator "acc" "videos" "in.mp4"))
                           (objectPath (mkLocator "acc" "videos" "in.mp4"))) = false
  /\ Py.char_in "#" (blob_url (accountName (mkLocator "acc" "videos" "in.mp4"))
                              (containerName (mkLocator "acc" "videos" "in.mp4"))
                              (objectPath (mkLocator "acc" "videos" "in.mp4"))) = false.
Proof.
  refine (rebuilt_url_without_query (fun _ => None) Faults.signed_url
            (mkLocator "acc" "videos" "in.mp4") _).
  vm_compute. reflexivity.
Defined.

(** ** Before the download, and the answer 200 *)

(** X21.  When the directory was created and no download was attempted,
    [main] answered 400 for a source URL without a blob path, or 500
    with [Unexpected error accessing blob storage: ] and the text of the
    exception (of [urlparse], of the credential or of the blob client);
    nothing was launched and the storage is as it was. *)
Theorem before_the_download (env : Env) (req : HttpRequest) (w : World) (d : string) :
  In (EvMkdtemp d) (events env req w) ->
  count_calls is_download (events env req w) = 0%nat ->
  ((call env req w).1
   = Response (mkResponse
       "Invalid blob URL format. URL must include container name and blob path." 400)
   \/ exists e,
        (call env req w).1
        = Response (mkResponse
            ("Unexpected error accessing blob storage: " ++ str_of_exn e) 500))
  /\ count_calls is_run (events env req w) = 0%nat
  /\ blobs (call env req w).2 = blobs w.
Proof.
  destruct w as [d0 f0 b0 t0].
  unfold_run. split_run.
  all: list_events; cbn [count_calls List.filter is_run length];
       intros Hin Hcount; try discriminate Hcount; use_events.
  all: split; [| split; reflexivity].
  all: first [ left; reflexivity | right; eexists; reflexivity ].
Qed.

(** X22.  [main] answers 200 only to a request whose three fields are
    texts that are not empty, and only after the download, a launch that
    exited with zero and an upload the storage accepted. *)
Theorem ok_needs_three_texts (env : Env) (req : HttpRequest) (w : World) :
  status_of (call env req w).1 = Some 200%Z ->
  (exists input output instruction,
      field req "inputBlobUrl" = inr (JStr input)
      /\ field req "outputContainerName" = inr (JStr output)
      /\ field req "ffmpegCommand" = inr (JStr instruction)
      /\ Py.nonempty input && Py.nonempty output && Py.nonempty instruction = true)
  /\ count_calls is_download_ok (events env req w) = 1%nat
  /\ count_calls is_clean_exit (events env req w) = 1%nat
  /\ count_calls is_upload_ok (events env req w) = 1%nat.
Proof.
  destruct w as [d0 f0 b0 t0].
  unfold_run. split_run.
  all: intros Hs; try discriminate Hs.
  all: list_events.
  all: cbn [count_calls List.filter is_download_ok is_clean_exit is_upload_ok length].
  all: know_exit_code.
  all: cbn [count_calls List.filter is_download_ok is_clean_exit is_upload_ok length].
  all: try match goal with
           | H : _ || negb false = false |- _ =>
               cbn [negb] in H; rewrite orb_true_r in H; discriminate H
           end.
  all: split; [| repeat split; reflexivity].
  all: eexists _, _, _; repeat (split; [reflexivity |]).
  all: match goal with
       | H : negb (truthy (JStr ?a)) || negb (truthy (JStr ?b)) || negb true = false |- _ =>
           cbn [truthy negb] in H; rewrite orb_false_r in H;
           apply orb_false_elim in H as [Ha Hb];
           apply negb_false_iff in Ha; apply negb_false_iff in Hb;
           rewrite Ha, Hb
       end.
  all: match goal with
       | H : truthy (JStr ?c) = true |- _ => cbn [truthy] in H; now rewrite H
       end.
Qed.

(** X23.  When the storage answers that the source blob does not exist,
    the response names the container and the blob path of the locator,
    not the text of the exception. *)
Theorem not_found_names_the_blob (env : Env) (req : HttpRequest) (w : World)
    (url msg : string) :
  In (EvDownload url (inl (ResourceNotFoundError msg))) (events env req w) ->
  exists src loc,
    field req "inputBlobUrl" = inr (JStr src)
    /\ parse_locator (check_bracketed_host env) src = inr (Some loc)
    /\ url = blob_url (accountName loc) (containerName loc) (objectPath loc)
    /\ (call env req w).1
       = Response (mkResponse
           ("Input blob not found at " ++ containerName loc ++ "/" ++ objectPath loc) 404).
Proof.
  destruct w as [d0 f0 b0 t0]. unfold parse_locator.
  unfold_run. split_run.
  all: list_events; intros Hin; use_events.
  all: try match goal with
           | H : download_result _ _ _ = _ |- _ => rewrite H in *; discriminate
           end.
  all: eexists _, _; split; [reflexivity |].
  all: match goal with H : UrlParse.urlparse _ _ = _ |- _ => rewrite H end.
  all: match goal with H : locate _ = _ |- _ => rewrite H end.
  all: repeat split; reflexivity.
Qed.

(** ** The properties on the sample deployments *)


Lemma stored_bytes_are_transcoder_output_witness :
  exists d src data_in argv stderr files' data_out dest,
    mkdtemp Faults.healthy = inr d
    /\ blobs Scenario.storage !! src = Some data_in
    /\ subprocess_run Faults.healthy argv
         (<[Py.path_join d "input.mp4" := data_in]>
            (<[Py.path_join d "input.mp4" := []]> (files Scenario.storage)))
       = inr (0%Z, stderr, files')
    /\ nth 2 argv EmptyString = Py.path_join d "input.mp4"
    /\ last argv = Some (Py.path_join d "output.mp4")
    /\ files' !! Py.path_join d "output.mp4" = Some data_out
    /\ blobs (call Faults.healthy Scenario.transcode_request Scenario.storage).2 = <[dest := data_out]> (blobs Scenario.storage).
Proof.
  refine (stored_bytes_are_transcoder_output Faults.healthy Scenario.transcode_request Scenario.storage _).
  vm_compute. reflexivity.
Defined.

Lemma identity_transcoding_round_trip_witness :
  exists src dest data,
    blobs Scenario.storage !! src = Some data
    /\ blobs (call Faults.copying Scenario.transcode_request Scenario.storage).2 !! dest = Some data
    /\ In (EvDownload src (inr data)) (events Faults.copying Scenario.transcode_request Scenario.storage)
    /\ In (EvUpload dest true data None) (events Faults.copying Scenario.transcode_request Scenario.storage).
Proof.
  refine (identity_transcoding_round_trip Faults.copying Scenario.transcode_request Scenario.storage _ _).
  - reflexivity.
  - vm_compute. reflexivity.
Defined.

Lemma launched_argv_witness :
  exists d ffmpeg_path instruction tokens,
    In (EvMkdtemp d) (events Faults.healthy Scenario.transcode_request Scenario.storage)
    /\ find_ffmpeg Faults.healthy (ffmpeg_locations Faults.healthy) = Some ffmpeg_path
    /\ field Scenario.transcode_request "ffmpegCommand" = inr (JStr instruction)
    /\ Shlex.split instruction = inr tokens
    /\ ["/usr/bin/ffmpeg"; "-i"; "/tmp/tmpk3v9q/input.mp4"; "-c"; "copy";
             "/tmp/tmpk3v9q/output.mp4"]
       = ([ffmpeg_path; "-i"; Py.path_join d "input.mp4"] ++ tokens
          ++ [Py.path_join d "output.mp4"])%list.
Proof.
  refine (launched_argv Faults.healthy Scenario.transcode_request Scenario.storage
            ["/usr/bin/ffmpeg"; "-i"; "/tmp/tmpk3v9q/input.mp4"; "-c"; "copy";
             "/tmp/tmpk3v9q/output.mp4"] (inr (0%Z, EmptyString)) _).
  vm_compute. do 3 right. left. reflexivity.
Defined.

Lemma no_binary_is_500_witness :
  (call Faults.no_binary Scenario.transcode_request Scenario.storage).1
  = Response (mkResponse "FFmpeg binary not found" 500)
  /\ count_calls is_run (events Faults.no_binary Scenario.transcode_request Scenario.storage) = 0%nat
  /\ blobs (call Faults.no_binary Scenario.transcode_request Scenario.storage).2 = blobs Scenario.storage.
Proof.
  refine (no_binary_is_500 Faults.no_binary Scenario.transcode_request Scenario.storage
            Scenario.source_url [Byte.x01; Byte.x02] _ _).
  - vm_compute. do 2 right. left. reflexivity.
  - vm_compute. reflexivity.
Defined.

Lemma launch_failure_is_500_witness :
  (call Faults.unlaunchable Scenario.transcode_request Scenario.storage).1
  = Response (mkResponse
      ("Error executing FFmpeg: " ++ str_of_exn (OtherError "[Errno 13] Permission denied"))
      500)
  /\ count_calls is_upload (events Faults.unlaunchable Scenario.transcode_request Scenario.storage) = 0%nat
  /\ blobs (call Faults.unlaunchable Scenario.transcode_request Scenario.storage).2 = blobs Scenario.storage.
Proof.
  refine (launch_failure_is_500 Faults.unlaunchable Scenario.transcode_request Scenario.storage
            ["/usr/bin/ffmpeg"; "-i"; "/tmp/tmpk3v9q/input.mp4"; "-c"; "copy";
             "/tmp/tmpk3v9q/output.mp4"] (OtherError "[Errno 13] Permission denied") _).
  vm_compute. do 3 right. left. reflexivity.
Defined.

Lemma tokenizer_error_is_500_witness :
  (call Faults.healthy Faults.open_quote_request Scenario.storage).1
  = Response (mkResponse
      ("Error executing FFmpeg: " ++ str_of_exn (ValueError "No closing quotation")) 500)
  /\ count_calls is_run (events Faults.healthy Faults.open_quote_request Scenario.storage) = 0%nat
  /\ blobs (call Faults.healthy Faults.open_quote_request Scenario.storage).2 = blobs Scenario.storage.
Proof.
  refine (tokenizer_error_is_500 Faults.healthy Faults.open_quote_request Scenario.storage
            Scenario.source_url
            ("-vf " ++ Scenario.dquote ++ "scale=1280:720") "/usr/bin/ffmpeg"
            [Byte.x01; Byte.x02] (ValueError "No closing quotation") _ _ _ _).
  - vm_compute. do 2 right. left. reflexivity.
  - vm_compute. reflexivity.
  - vm_compute. reflexivity.
  - vm_compute. reflexivity.
Defined.

Lemma after_transcoding_witness :
  (call Faults.silent Scenario.transcode_request Scenario.storage).1
  = Response (mkResponse "Video processed successfully" 200)
  \/ exists e,
       (call Faults.silent Scenario.transcode_request Scenario.storage).1
       = Response (mkResponse
           ("Video processing completed but upload failed: " ++ str_of_exn e) 500)
       /\ blobs (call Faults.silent Scenario.transcode_request Scenario.storage).2 = blobs Scenario.storage.
Proof.
  refine (after_transcoding Faults.silent Scenario.transcode_request Scenario.storage
            ["/usr/bin/ffmpeg"; "-i"; "/tmp/tmpk3v9q/input.mp4"; "-c"; "copy";
             "/tmp/tmpk3v9q/output.mp4"] EmptyString _).
  vm_compute. do 3 right. left. reflexivity.
Defined.

Lemma download_error_is_500_witness :
  (call Faults.download_refused Scenario.transcode_request Scenario.storage).1
  = Response (mkResponse
      ("Error downloading input file: "
       ++ str_of_exn (OtherError "AuthorizationPermissionMismatch")) 500)
  /\ count_calls is_run (events Faults.download_refused Scenario.transcode_request Scenario.storage) = 0%nat
  /\ blobs (call Faults.download_refused Scenario.transcode_request Scenario.storage).2 = blobs Scenario.storage.
Proof.
  refine (download_error_is_500 Faults.download_refused Scenario.transcode_request Scenario.storage
            Scenario.source_url (OtherError "AuthorizationPermissionMismatch") _ _).
  - vm_compute. do 2 right. left. reflexivity.
  - intros msg. discriminate.
Defined.

Lemma before_the_download_witness :
  ((call Faults.healthy Scenario.container_only_request Scenario.storage).1
   = Response (mkResponse
       "Invalid blob URL format. URL must include container name and blob path." 400)
   \/ exists e,
        (call Faults.healthy Scenario.container_only_request Scenario.storage).1
        = Response (mkResponse
            ("Unexpected error accessing blob storage: " ++ str_of_exn e) 500))
  /\ count_calls is_run (events Faults.healthy Scenario.container_only_request Scenario.storage) = 0%nat
  /\ blobs (call Faults.healthy Scenario.container_only_request Scenario.storage).2 = blobs Scenario.storage.
Proof.
  refine (before_the_download Faults.healthy Scenario.container_only_request Scenario.storage "/tmp/tmpk3v9q" _ _).
  - vm_compute. left. reflexivity.
  - vm_compute. reflexivity.
Defined.

Lemma ok_needs_three_texts_witness :
  (exists input output instruction,
      field Scenario.transcode_request "inputBlobUrl" = inr (JStr input)
      /\ field Scenario.transcode_request "outputContainerName" = inr (JStr output)
      /\ field Scenario.transcode_request "ffmpegCommand" = inr (JStr instruction)
      /\ Py.nonempty input && Py.nonempty output && Py.nonempty instruction = true)
  /\ count_calls is_download_ok (events Faults.healthy Scenario.transcode_request Scenario.storage) = 1%nat
  /\ count_calls is_clean_exit (events Faults.healthy Scenario.transcode_request Scenario.storage) = 1%nat
  /\ count_calls is_upload_ok (events Faults.healthy Scenario.transcode_request Scenario.storage) = 1%nat.
Proof.
  refine (ok_needs_three_texts Faults.healthy Scenario.transcode_request Scenario.storage _).
  vm_compute. reflexivity.
Defined.

Lemma not_found_names_the_blob_witness :
  exists src loc,
    field Scenario.transcode_request "inputBlobUrl" = inr (JStr src)
    /\ parse_locator (check_bracketed_host Faults.healthy) src = inr (Some loc)
    /\ Scenario.source_url
       = blob_url (accountName loc) (containerName loc) (objectPath loc)
    /\ (call Faults.healthy Scenario.transcode_request Scenario.empty_storage).1
       = Response (mkResponse
           ("Input blob not found at " ++ containerName loc ++ "/" ++ objectPath loc) 404).
Proof.
  refine (not_found_names_the_blob Faults.healthy Scenario.transcode_request Scenario.empty_storage
            Scenario.source_url "The specified blob does not exist." _).
  vm_compute. do 2 right. left. reflexivity.
Defined.

Lemma storage_changes_only_on_200_witness :
  status_of (call Faults.upload_refused Scenario.transcode_request Scenario.storage).1
  <> Some 200%Z
  /\ blobs (call Faults.upload_refused Scenario.transcode_request Scenario.storage).2
     = blobs Scenario.storage
  /\ forallb (fun ev => negb (is_upload_ok ev))
       (events Faults.upload_refused Scenario.transcode_request Scenario.storage) = true.
Proof.
  destruct (storage_changes_only_on_200 Faults.upload_refused Scenario.transcode_request
              Scenario.storage) as [[H _] | H].
  - vm_compute in H. discriminate H.
  - exact H.
Defined.

Lemma outcomes_of_main_witness :
  (field Scenario.transcode_request "inputBlobUrl"
   = inl (OtherError "[Errno 28] No space left on device")
   \/ mkdtemp Faults.no_tempdir = inl (OtherError "[Errno 28] No space left on device"))
  /\ (call Faults.no_tempdir Scenario.transcode_request Scenario.storage).2
     = Scenario.storage.
Proof.
  exact (outcomes_of_main Faults.no_tempdir Scenario.transcode_request Scenario.storage).
Defined.
